(** * generate_patch_report.py: extraction of per-host patch facts

    A shallow embedding of [extract_value], [parse_ansible_json] and the
    report-writing loops of [generate_patch_report.py], with the Python
    operations they rely on ([dict.get], subscripting, iteration,
    [str.strip], [str.split], [str.splitlines], [str.startswith], [in]).

    Python values are the ones [json.load] can produce.  A [str] is
    modelled by a Rocq [string]: a sequence of characters with codes
    0..255.  A [dict] is an association list in insertion order; lookup
    returns the first binding of a key. *)

From Stdlib Require Import String Ascii List ZArith Bool Lia Permutation.
Import ListNotations.

Local Open Scope string_scope.
Local Open Scope list_scope.
Local Open Scope Z_scope.

(* ================================================================== *)
(** ** Exceptions and the error monad *)

Inductive exn : Type :=
| IndexError
| KeyError
| AttributeError
| TypeError
| ValueError.

Inductive result (A : Type) : Type :=
| Ok (a : A)
| Raise (e : exn).

Arguments Ok {A} a.
Arguments Raise {A} e.

Definition bind {A B : Type} (c : result A) (k : A -> result B) : result B :=
  match c with
  | Ok a => k a
  | Raise e => Raise e
  end.

Notation "x <- c ;; k" := (bind c (fun x => k))
  (at level 61, c at next level, right associativity).

(* ================================================================== *)
(** ** Python values *)

Local Unset Elimination Schemes.

Inductive pyval : Type :=
| PNone
| PBool (b : bool)
| PInt (z : Z)
| PFloat (m e : Z)
| PStr (s : string)
| PList (l : list pyval)
| PDict (kv : list (string * pyval)).

Local Set Elimination Schemes.

(** A dict with string keys, in insertion order. *)
Definition dict (A : Type) : Type := list (string * A).

Fixpoint dict_get {A : Type} (d : dict A) (k : string) : option A :=
  match d with
  | [] => None
  | (k', v) :: r => if String.eqb k' k then Some v else dict_get r k
  end.

(** [d[k] = v]: an existing key keeps its position, a new key goes last. *)
Fixpoint dict_set {A : Type} (d : dict A) (k : string) (v : A) : dict A :=
  match d with
  | [] => [(k, v)]
  | (k', v') :: r =>
      if String.eqb k' k then (k', v) :: r else (k', v') :: dict_set r k v
  end.

Definition dict_keys {A : Type} (d : dict A) : list string := map fst d.

(** [d.update(other)] *)
Definition dict_update {A : Type} (d other : dict A) : dict A :=
  fold_left (fun acc kv => dict_set acc (fst kv) (snd kv)) other d.

(** [v.get(key, default)]: only a dict has [get]. *)
Definition py_get (v : pyval) (key : string) (default : pyval) : result pyval :=
  match v with
  | PDict d =>
      Ok (match dict_get d key with Some x => x | None => default end)
  | _ => Raise AttributeError
  end.

(** [v.items()] *)
Definition py_items (v : pyval) : result (list (string * pyval)) :=
  match v with
  | PDict d => Ok d
  | _ => Raise AttributeError
  end.

(** [l[i]] on a Python list, negative indices counting from the end. *)
Definition list_index {A : Type} (l : list A) (i : Z) : result A :=
  let n := Z.of_nat (length l) in
  let j := if i <? 0 then i + n else i in
  if (j <? 0) || (n <=? j) then Raise IndexError
  else match nth_error l (Z.to_nat j) with
       | Some x => Ok x
       | None => Raise IndexError
       end.

Definition chars (s : string) : list string :=
  map (fun c => String c EmptyString) (list_ascii_of_string s).

(** [v[i]] for an integer [i].  The keys of a dict read from JSON are
    strings, so an integer subscript of a dict is a [KeyError]. *)
Definition py_index (v : pyval) (i : Z) : result pyval :=
  match v with
  | PList l => list_index l i
  | PStr s => x <- list_index (chars s) i ;; Ok (PStr x)
  | PDict _ => Raise KeyError
  | _ => Raise TypeError
  end.

(** The elements [for x in v] runs over. *)
Definition py_iter (v : pyval) : result (list pyval) :=
  match v with
  | PList l => Ok l
  | PDict d => Ok (map PStr (dict_keys d))
  | PStr s => Ok (map PStr (chars s))
  | _ => Raise TypeError
  end.

(** [v == s] for a string literal [s]. *)
Definition py_eq_str (v : pyval) (s : string) : bool :=
  match v with
  | PStr x => String.eqb x s
  | _ => false
  end.

(* ================================================================== *)
(** ** String methods *)

Definition code (c : ascii) : nat := nat_of_ascii c.

(** [c.isspace()] for a character below 256. *)
Definition is_space (c : ascii) : bool :=
  let n := code c in
  (((9 <=? n) && (n <=? 13)) || ((28 <=? n) && (n <=? 32))
   || (n =? 133) || (n =? 160))%nat.

(** The line boundaries of [str.splitlines] below 256. *)
Definition is_linebreak (c : ascii) : bool :=
  let n := code c in
  (((10 <=? n) && (n <=? 13)) || ((28 <=? n) && (n <=? 30))
   || (n =? 133))%nat.

Fixpoint lstrip (s : string) : string :=
  match s with
  | EmptyString => EmptyString
  | String c r => if is_space c then lstrip r else s
  end.

Fixpoint rstrip (s : string) : string :=
  match s with
  | EmptyString => EmptyString
  | String c r =>
      match rstrip r with
      | EmptyString => if is_space c then EmptyString else String c EmptyString
      | r' => String c r'
      end
  end.

(** [s.strip()] *)
Definition strip (s : string) : string := rstrip (lstrip s).

(** [s.startswith(p)] *)
Definition startswith (s p : string) : bool := String.prefix p s.

(** [sub in s] *)
Fixpoint contains (sub s : string) : bool :=
  String.prefix sub s
  || match s with
     | EmptyString => false
     | String _ r => contains sub r
     end.

(** [s.split(sep)] for a one-character separator. *)
Fixpoint split_on (sep : ascii) (s : string) : list string :=
  match s with
  | EmptyString => [EmptyString]
  | String c r =>
      if Ascii.eqb c sep then EmptyString :: split_on sep r
      else match split_on sep r with
           | h :: t => String c h :: t
           | [] => [String c EmptyString]
           end
  end.

(** The two halves around the first [sep], if there is one. *)
Fixpoint cut (sep : ascii) (s : string) : option (string * string) :=
  match s with
  | EmptyString => None
  | String c r =>
      if Ascii.eqb c sep then Some (EmptyString, r)
      else match cut sep r with
           | Some (a, b) => Some (String c a, b)
           | None => None
           end
  end.

(** [s.split(sep, 1)] *)
Definition split1 (sep : ascii) (s : string) : list string :=
  match cut sep s with
  | Some (a, b) => [a; b]
  | None => [s]
  end.

Definition CR : ascii := ascii_of_nat 13.
Definition LF : ascii := ascii_of_nat 10.
Definition TAB : ascii := ascii_of_nat 9.

(** [s.splitlines()], [cur] being the line read so far.  A carriage
    return followed by a line feed is one boundary; a final boundary
    opens no further line. *)
Fixpoint splitlines_from (cur s : string) : list string :=
  match s with
  | EmptyString =>
      match cur with EmptyString => [] | _ => [cur] end
  | String c r =>
      if Ascii.eqb c CR then
        match r with
        | String c' r' =>
            if Ascii.eqb c' LF then cur :: splitlines_from EmptyString r'
            else cur :: splitlines_from EmptyString r
        | EmptyString => cur :: splitlines_from EmptyString r
        end
      else if is_linebreak c then cur :: splitlines_from EmptyString r
      else splitlines_from (cur ++ String c EmptyString)%string r
  end.

Definition splitlines (s : string) : list string :=
  splitlines_from EmptyString s.

(* ================================================================== *)
(** ** The extractor *)

(** [extract_value(output_lines, prefix)] *)
Fixpoint extract_value (output_lines : list pyval) (prefix : string)
  : result string :=
  match output_lines with
  | [] => Ok "N/A"%string
  | line :: rest =>
      match line with
      | PStr s =>
          if startswith s prefix then
            v <- list_index (split1 ":" s) 1 ;; Ok (strip v)
          else extract_value rest prefix
      | _ => Raise AttributeError
      end
  end.

Definition NAME_REBOOT : string := "Display Last System Reboot Date and Time".
Definition NAME_PKG : string := "Display Date of Last Package Upgrade".
Definition NAME_KERNEL : string :=
  "Display Current Active Kernel Version and Build Date".
Definition NAME_CLAMAV : string := "Display Date of Last ClamAV Freshclam Update".
Definition NAME_JAVA : string := "Display Java Running Status".

Definition LABEL_REBOOT : string := "Last System Reboot Date/Time:".
Definition LABEL_PKG : string := "Date of Last Package Upgrade:".
Definition LABEL_KERNEL : string :=
  "Current Active Kernel Version and Build Date:".
Definition LABEL_CLAMAV : string := "ClamAV Freshclam Last Database Update:".
Definition LABEL_JAVA : string := "Java Running Status:".

Definition DNF_SENTINEL : string :=
  "N/A - Could not determine from DNF history.".
Definition DB_MISSING : string := "database file not found".
Definition JAVA_FOUND : string := "Yes, Java processes found.".

(** [task_output.get('task', {}).get('name')] *)
Definition task_name (task_output : pyval) : result pyval :=
  t <- py_get task_output "task" (PDict []) ;;
  py_get t "name" PNone.

(** [task_output.get('result', {}).get('msg', default)] *)
Definition result_msg (task_output default : pyval) : result pyval :=
  r <- py_get task_output "result" (PDict []) ;;
  py_get r "msg" default.

(** [v.strip()] *)
Definition py_strip (v : pyval) : result string :=
  match v with
  | PStr s => Ok (strip s)
  | _ => Raise AttributeError
  end.

(** [all_debug_msgs.append(task_output.get('result', {}).get('msg'))]
    when the task is called [name]. *)
Definition append_msg (name : string) (task_output : pyval)
    (all_debug_msgs : list pyval) : result (list pyval) :=
  n <- task_name task_output ;;
  if py_eq_str n name then
    m <- result_msg task_output PNone ;;
    Ok (all_debug_msgs ++ [m])
  else Ok all_debug_msgs.

(** [msg = task_output.get('result', {}).get('msg', '').strip();
     all_debug_msgs.extend(msg.splitlines())] when the task is called
    [name]. *)
Definition extend_lines (name : string) (task_output : pyval)
    (all_debug_msgs : list pyval) : result (list pyval) :=
  n <- task_name task_output ;;
  if py_eq_str n name then
    m <- result_msg task_output (PStr "") ;;
    msg <- py_strip m ;;
    Ok (all_debug_msgs ++ map PStr (splitlines msg))
  else Ok all_debug_msgs.

(** The body of [for task_output in host_data.get('tasks', [])]: the
    five [if] statements in turn. *)
Definition task_step (all_debug_msgs : list pyval) (task_output : pyval)
  : result (list pyval) :=
  a1 <- append_msg NAME_REBOOT task_output all_debug_msgs ;;
  a2 <- append_msg NAME_PKG task_output a1 ;;
  a3 <- append_msg NAME_KERNEL task_output a2 ;;
  a4 <- extend_lines NAME_CLAMAV task_output a3 ;;
  extend_lines NAME_JAVA task_output a4.

Fixpoint collect_msgs (all_debug_msgs : list pyval) (tasks : list pyval)
  : result (list pyval) :=
  match tasks with
  | [] => Ok all_debug_msgs
  | task_output :: rest =>
      a <- task_step all_debug_msgs task_output ;;
      collect_msgs a rest
  end.

(** [x.split(' ')[0]] *)
Definition first_field (x : string) : result string :=
  list_index (split_on " " x) 0.

Definition rocky_status (last_pkg_upgrade : string) : result string :=
  if negb (String.eqb last_pkg_upgrade DNF_SENTINEL) then
    d <- first_field last_pkg_upgrade ;; Ok ("Last Pkg: " ++ d)%string
  else Ok "N/A"%string.

Definition clamav_status (clamav_update : string) : result string :=
  if negb (contains DB_MISSING clamav_update) then
    d <- first_field clamav_update ;; Ok ("Last AV: " ++ d)%string
  else Ok "N/A"%string.

Definition java_flag (java_status : string) : string :=
  if contains JAVA_FOUND java_status then "Yes"%string else "No"%string.

(** A Host Report Record: the dict stored under the host's name. *)
Definition record : Type := dict string.

(** The outcomes [for task_output in host_data.get('tasks', [])] runs
    over. *)
Definition host_outcomes (host_data : pyval) : result (list pyval) :=
  tasks <- py_get host_data "tasks" (PList []) ;; py_iter tasks.

(** The diagnostic lines of one host. *)
Definition host_lines (host_data : pyval) : result (list pyval) :=
  outs <- host_outcomes host_data ;;
  collect_msgs [] outs.

(** From the diagnostic lines to the record. *)
Definition lines_record (all_debug_msgs : list pyval) : result record :=
  last_reboot <- extract_value all_debug_msgs LABEL_REBOOT ;;
  last_pkg_upgrade <- extract_value all_debug_msgs LABEL_PKG ;;
  kernel_version <- extract_value all_debug_msgs LABEL_KERNEL ;;
  clamav_update <- extract_value all_debug_msgs LABEL_CLAMAV ;;
  java_status <- extract_value all_debug_msgs LABEL_JAVA ;;
  rocky_updated_status <- rocky_status last_pkg_upgrade ;;
  clamav_updated_status <- clamav_status clamav_update ;;
  let java_running_status := java_flag java_status in
  Ok [ ("Rocky Updated"%string, rocky_updated_status);
       ("ClamAV Updated"%string, clamav_updated_status);
       ("Last Reboot"%string, last_reboot);
       ("Kernel Version"%string, kernel_version);
       ("Java Running"%string, java_running_status) ].

(** The body of the loop over hosts. *)
Definition host_record (host_data : pyval) : result record :=
  all_debug_msgs <- host_lines host_data ;;
  lines_record all_debug_msgs.

Fixpoint host_loop (results : dict record) (items : list (string * pyval))
  : result (dict record) :=
  match items with
  | [] => Ok results
  | (host, host_data) :: rest =>
      r <- host_record host_data ;;
      host_loop (dict_set results host r) rest
  end.

(** [json_data.get('plays', [])[0].get('tasks', {})[-1].get('hosts', {})] *)
Definition selected_hosts (json_data : pyval) : result pyval :=
  plays <- py_get json_data "plays" (PList []) ;;
  play <- py_index plays 0 ;;
  tasks <- py_get play "tasks" (PDict []) ;;
  group <- py_index tasks (-1) ;;
  py_get group "hosts" (PDict []).

Definition parse_ansible_json (json_data : pyval) : result (dict record) :=
  hosts <- selected_hosts json_data ;;
  items <- py_items hosts ;;
  host_loop [] items.

(* ================================================================== *)
(** ** Assembling the diagnostic lines *)

(** The lines one task outcome contributes. *)
Definition task_lines (task_output : pyval) : result (list pyval) :=
  task_step [] task_output.

(** The contribution of one outcome, read off its name: the message as
    it is for the three single-line tasks, the lines of the stripped
    message for the two multi-line tasks, nothing otherwise. *)
Definition single_line_name (n : pyval) : bool :=
  py_eq_str n NAME_REBOOT || py_eq_str n NAME_PKG || py_eq_str n NAME_KERNEL.

Definition multi_line_name (n : pyval) : bool :=
  py_eq_str n NAME_CLAMAV || py_eq_str n NAME_JAVA.

Definition contribution (task_output : pyval) : result (list pyval) :=
  n <- task_name task_output ;;
  if single_line_name n then
    m <- result_msg task_output PNone ;; Ok [m]
  else if multi_line_name n then
    m <- result_msg task_output (PStr "") ;;
    msg <- py_strip m ;;
    Ok (map PStr (splitlines msg))
  else Ok [].

(* ================================================================== *)
(** ** Substrings and separators *)

(** [sub] occurs in [s]. *)
Definition substring_of (sub s : string) : Prop :=
  exists pre post, s = (pre ++ sub ++ post)%string.

(** The text of [s] before its first [sep]. *)
Fixpoint before_sep (sep : ascii) (s : string) : string :=
  match s with
  | EmptyString => EmptyString
  | String c r =>
      if Ascii.eqb c sep then EmptyString else String c (before_sep sep r)
  end.

(** [t] is what precedes the first [sep] of [s]: [t] has no [sep], and
    [s] is [t] alone or [t] followed by [sep] and some rest. *)
Definition text_before (sep : ascii) (s t : string) : Prop :=
  ~ In sep (list_ascii_of_string t)
  /\ (s = t \/ exists r, s = (t ++ String sep r)%string).

(* ================================================================== *)
(** ** Lines and labels *)

(** The value a matching line carries: what follows its first colon,
    stripped. *)
Definition value_of (line : string) : result string :=
  v <- list_index (split1 ":" line) 1 ;; Ok (strip v).

(** A string line that does not carry the label [p]. *)
Definition unlabelled (p : string) (v : pyval) : Prop :=
  exists s, v = PStr s /\ startswith s p = false.

(* ================================================================== *)
(** ** From the document to one host's record *)

(** The [(host, host_data)] pairs the loop of [parse_ansible_json] runs
    over. *)
Definition selected_items (json_data : pyval)
  : result (list (string * pyval)) :=
  hosts <- selected_hosts json_data ;; py_items hosts.

(** [processed doc host lines rec]: [host] is a host of the selected
    task group of [doc], [lines] is its Diagnostic Line Set and [rec]
    the record computed from it. *)
Definition processed (doc : pyval) (host : string) (lines : list pyval)
    (rec : record) : Prop :=
  exists items hd,
    selected_items doc = Ok items /\ In (host, hd) items
    /\ host_lines hd = Ok lines /\ lines_record lines = Ok rec.

(** The document has a first play, that play a last task group, and
    [hosts] is the host mapping of that group (empty when the group has
    no "hosts" entry). *)
Definition selects (doc : pyval) (hosts : dict pyval) : Prop :=
  exists d play rest groups group,
    doc = PDict d
    /\ dict_get d "plays" = Some (PList (PDict play :: rest))
    /\ dict_get play "tasks" = Some (PList (groups ++ [PDict group]))
    /\ (dict_get group "hosts" = Some (PDict hosts)
        \/ (dict_get group "hosts" = None /\ hosts = [])).

(** Following the spec's words, "the first whitespace-delimited token":
    the leading whitespace skipped, then the characters up to the next
    whitespace character. *)
Fixpoint until_space (s : string) : string :=
  match s with
  | EmptyString => EmptyString
  | String c r => if is_space c then EmptyString else String c (until_space r)
  end.

Definition spec_first_token (s : string) : string := until_space (lstrip s).

(** The only whitespace of [s] is the space character. *)
Definition space_only (s : string) : Prop :=
  forall c, In c (list_ascii_of_string s) -> is_space c = true -> c = " "%char.

(** Documents for the examples: one play, one task group. *)
Definition task_outcome (name : string) (result : dict pyval) : pyval :=
  PDict [ ("task"%string, PDict [("name"%string, PStr name)]);
          ("result"%string, PDict result) ].

Definition task_with_msg (name msg : string) : pyval :=
  task_outcome name [("msg"%string, PStr msg)].

Definition host_with (outcomes : list pyval) : pyval :=
  PDict [("tasks"%string, PList outcomes)].

Definition run_document (hosts : dict pyval) : pyval :=
  PDict [("plays"%string,
          PList [PDict [("tasks"%string,
                         PList [PDict [("hosts"%string, PDict hosts)]])]])].

Definition MSG_REBOOT : string :=
  "Last System Reboot Date/Time: 2024-03-01 10:00:00".
Definition MSG_PKG : string :=
  "Date of Last Package Upgrade: 2024-03-02 00:00:00".
Definition MSG_KERNEL : string :=
  "Current Active Kernel Version and Build Date: 5.14.0".
Definition MSG_CLAMAV : string :=
  "ClamAV Freshclam Last Database Update: 2024-03-03 01:00:00 (older db removed)".
Definition MSG_JAVA : string :=
  "Java Running Status: Yes, Java processes found.".

Definition web01_record : record :=
  [ ("Rocky Updated", "Last Pkg: 2024-03-02");
    ("ClamAV Updated", "Last AV: 2024-03-03");
    ("Last Reboot", "2024-03-01 10:00:00");
    ("Kernel Version", "5.14.0");
    ("Java Running", "Yes") ]%string.

Definition web01_outcomes : list pyval :=
  [ task_with_msg NAME_REBOOT MSG_REBOOT;
    task_with_msg NAME_PKG MSG_PKG;
    task_with_msg NAME_KERNEL MSG_KERNEL;
    task_with_msg NAME_CLAMAV MSG_CLAMAV;
    task_with_msg NAME_JAVA MSG_JAVA ].

Definition web01_document : pyval :=
  run_document [("web01"%string, host_with web01_outcomes)].

(** The record of a host with no task outcome at all. *)
Definition default_record : record :=
  [ ("Rocky Updated", "Last Pkg: N/A");
    ("ClamAV Updated", "Last AV: N/A");
    ("Last Reboot", "N/A");
    ("Kernel Version", "N/A");
    ("Java Running", "No") ]%string.

(* ================================================================== *)
(** ** The Rocky-update status *)

Definition raw_with_tab : string :=
  ("2024-03-02" ++ String TAB "00:00:00")%string.

Definition tab_pkg_document : pyval :=
  run_document
    [("web01"%string,
      host_with [task_with_msg NAME_PKG
                   ("Date of Last Package Upgrade: " ++ raw_with_tab)%string])].

(* ================================================================== *)
(** ** The ClamAV-update status *)

Definition clamav_raw_with_tab : string :=
  ("2024-03-03" ++ String TAB "01:00:00")%string.

Definition tab_clamav_host : pyval :=
  host_with [task_with_msg NAME_CLAMAV
               ("ClamAV Freshclam Last Database Update: "
                ++ clamav_raw_with_tab)%string].

(** A host with no ClamAV-display task, whose kernel-display task
    carries a line with the ClamAV label. *)
Definition stray_label_host : pyval :=
  host_with [task_with_msg NAME_KERNEL
               "ClamAV Freshclam Last Database Update: 2024-03-03 01:00:00"].

(* ================================================================== *)
(** ** Hosts without any labelled line *)

(** A string line that carries none of the five field labels. *)
Definition no_label (v : pyval) : Prop :=
  unlabelled LABEL_REBOOT v /\ unlabelled LABEL_PKG v
  /\ unlabelled LABEL_KERNEL v /\ unlabelled LABEL_CLAMAV v
  /\ unlabelled LABEL_JAVA v.

Definition kernel_only_line : string := "Linux 5.14.0-362.el9.x86_64".

Definition unlabelled_document : pyval :=
  run_document
    [("web01"%string,
      host_with [task_with_msg NAME_KERNEL kernel_only_line])].

(* ================================================================== *)
(** ** One record per host, every field a string *)

(** A record with its five keys, each bound to a string. *)
Definition full_record (rec : record) : Prop :=
  exists rocky clam reboot kernel java : string,
    rec = [ ("Rocky Updated"%string, rocky);
            ("ClamAV Updated"%string, clam);
            ("Last Reboot"%string, reboot);
            ("Kernel Version"%string, kernel);
            ("Java Running"%string, java) ].

(* ================================================================== *)
(** ** The end-to-end example *)

(** The outcome [t] is of the task called [name] and its result has the
    message [msg]. *)
Definition carries (t : pyval) (name msg : string) : Prop :=
  task_name t = Ok (PStr name) /\ result_msg t PNone = Ok (PStr msg).

(** An outcome of a task that is none of the five display tasks. *)
Definition other_outcome (t : pyval) : Prop :=
  exists n, task_name t = Ok n
            /\ single_line_name n = false /\ multi_line_name n = false.

Definition web01_messages : list string :=
  [MSG_REBOOT; MSG_PKG; MSG_KERNEL; MSG_CLAMAV; MSG_JAVA].

(** What the outcomes of the example may be: the five display tasks with
    their messages, and outcomes of other tasks. *)
Definition web01_outcome (t : pyval) : Prop :=
  carries t NAME_REBOOT MSG_REBOOT \/ carries t NAME_PKG MSG_PKG
  \/ carries t NAME_KERNEL MSG_KERNEL \/ carries t NAME_CLAMAV MSG_CLAMAV
  \/ carries t NAME_JAVA MSG_JAVA \/ other_outcome t.

(* ================================================================== *)
(** ** The order of the diagnostic lines *)

(** Following the spec's words, "in the order the five task names were
    checked": one pass over the outcomes for each name of the fixed
    list, each pass appending zero or more lines. *)
Fixpoint name_pass (check : pyval -> list pyval -> result (list pyval))
    (all_debug_msgs : list pyval) (outs : list pyval) : result (list pyval) :=
  match outs with
  | [] => Ok all_debug_msgs
  | t :: rest => a <- check t all_debug_msgs ;; name_pass check a rest
  end.

Definition spec_lines_by_name (outs : list pyval) : result (list pyval) :=
  a1 <- name_pass (append_msg NAME_REBOOT) [] outs ;;
  a2 <- name_pass (append_msg NAME_PKG) a1 outs ;;
  a3 <- name_pass (append_msg NAME_KERNEL) a2 outs ;;
  a4 <- name_pass (extend_lines NAME_CLAMAV) a3 outs ;;
  name_pass (extend_lines NAME_JAVA) a4 outs.

Definition JAVA_NO_LINE : string :=
  "Java Running Status: No, Java processes not found.".
Definition CLAMAV_LINE : string :=
  "ClamAV Freshclam Last Database Update: 2024-03-03 01:00:00".

Definition java_outcome : pyval := task_with_msg NAME_JAVA MSG_JAVA.
Definition clamav_outcome : pyval :=
  task_with_msg NAME_CLAMAV (CLAMAV_LINE ++ String LF JAVA_NO_LINE)%string.

(* ================================================================== *)
(** ** Structural failures and the empty host mapping *)

(** The document has no play: no "plays" entry, or an empty list. *)
Definition no_plays (doc : pyval) : Prop :=
  exists d, doc = PDict d
    /\ (dict_get d "plays" = None \/ dict_get d "plays" = Some (PList [])).

(** The "tasks" entry of the first play is [tasks]. *)
Definition first_play_tasks (doc : pyval) (tasks : option pyval) : Prop :=
  exists d play rest, doc = PDict d
    /\ dict_get d "plays" = Some (PList (PDict play :: rest))
    /\ dict_get play "tasks" = tasks.

(** The first play has no task group: no "tasks" entry, or an empty
    list. *)
Definition no_task_groups (doc : pyval) : Prop :=
  first_play_tasks doc None \/ first_play_tasks doc (Some (PList [])).

(* ================================================================== *)
(** ** A named task without a message *)

(** A host whose reboot-display task has a result without "msg". *)
Definition reboot_without_msg : pyval :=
  host_with [task_outcome NAME_REBOOT []].

(** The same for the ClamAV-display task. *)
Definition clamav_without_msg : pyval :=
  host_with [task_outcome NAME_CLAMAV []].

(* ================================================================== *)
(** ** The reporter *)

Definition fieldnames : list string :=
  [ "Host"; "Rocky Updated"; "ClamAV Updated"; "Last Reboot";
    "Kernel Version"; "Java Running" ]%string.

(** [csv.DictWriter._dict_to_list], with the writer's defaults: a key
    outside [fieldnames] is a [ValueError], a missing one gives [''].
    The result is the row handed to the underlying csv writer. *)
Definition dict_to_list (rowdict : dict string) : result (list string) :=
  if forallb (fun k => existsb (String.eqb k) fieldnames) (dict_keys rowdict)
  then Ok (map (fun key => match dict_get rowdict key with
                           | Some v => v
                           | None => EmptyString
                           end) fieldnames)
  else Raise ValueError.

(** [for host, data in parsed_results.items(): row = {'Host': host};
     row.update(data); writer.writerow(row)], [written] being the rows
    written so far. *)
Fixpoint csv_loop (written : list (list string)) (items : dict record)
  : result (list (list string)) :=
  match items with
  | [] => Ok written
  | (host, data) :: rest =>
      let row := dict_update [("Host"%string, host)] data in
      cells <- dict_to_list row ;;
      csv_loop (written ++ [cells]) rest
  end.

(** The rows of the CSV report: [writeheader()], then the loop. *)
Definition csv_report (parsed_results : dict record)
  : result (list (list string)) :=
  header <- dict_to_list (combine fieldnames fieldnames) ;;
  csv_loop [header] parsed_results.

(** [d[k]] *)
Definition dict_item (d : dict string) (k : string) : result string :=
  match dict_get d k with
  | Some v => Ok v
  | None => Raise KeyError
  end.

Definition NL : string := String LF EmptyString.

(** A table row: the cells between pipes. *)
Definition md_line (cells : list string) : string :=
  ("| " ++ String.concat " | " cells ++ " |" ++ NL)%string.

(** The f-string of the Markdown loop. *)
Definition md_row (host : string) (data : record) : result string :=
  a <- dict_item data "Rocky Updated" ;;
  b <- dict_item data "ClamAV Updated" ;;
  c <- dict_item data "Last Reboot" ;;
  d <- dict_item data "Kernel Version" ;;
  e <- dict_item data "Java Running" ;;
  Ok ("| " ++ host ++ " | " ++ a ++ " | " ++ b ++ " | " ++ c ++ " | "
      ++ d ++ " | " ++ e ++ " |" ++ NL)%string.

Fixpoint md_loop (written : list string) (items : dict record)
  : result (list string) :=
  match items with
  | [] => Ok written
  | (host, data) :: rest =>
      line <- md_row host data ;;
      md_loop (written ++ [line]) rest
  end.

Definition MD_HEADER : string :=
  ("| Host | Rocky Updated | ClamAV Updated | Last Reboot | Kernel Version | Java Running |"
   ++ NL)%string.
Definition MD_SEPARATOR : string := ("|---|---|---|---|---|---|" ++ NL)%string.
Definition MD_NOTE : string :=
  (NL ++ NL ++
   "*Note: This report covers Rocky Linux servers and ClamAV status only. Other systems (Firewalls, vSphere, etc.) require separate validation methods.*")%string.

Section MarkdownReport.

(** [datetime.now().strftime("%Y-%m-%d")] *)
Variable CHECKLIST_DATE : string.

Definition md_title : string :=
  ("# Monthly Patching Report - " ++ CHECKLIST_DATE ++ NL ++ NL)%string.

(** The strings written to the Markdown file, in order. *)
Definition md_report (parsed_results : dict record) : result (list string) :=
  body <- md_loop [md_title; MD_HEADER; MD_SEPARATOR] parsed_results ;;
  Ok (body ++ [NL; "---"%string; MD_NOTE]).

End MarkdownReport.

(** The cells of a host's row: the host, then the five values of its
    record. *)
Definition host_cells (hr : string * record) : list string :=
  fst hr :: map snd (snd hr).

(* ================================================================== *)
(** ** Lines, labels and hosts: further notions *)

(** A Python [str]. *)
Definition is_str (v : pyval) : Prop := exists s, v = PStr s.

(** The five field labels, in the order of the scans. *)
Definition LABELS : list string :=
  [LABEL_REBOOT; LABEL_PKG; LABEL_KERNEL; LABEL_CLAMAV; LABEL_JAVA].

(** [s] has no line boundary of [str.splitlines]. *)
Definition one_line (s : string) : Prop :=
  forall c, In c (list_ascii_of_string s) -> is_linebreak c = false.

(** The record of the host data succeeds. *)
Definition host_ok (item : string * pyval) : Prop :=
  exists r, host_record (snd item) = Ok r.

(* ================================================================== *)
(** ** The main block *)

(** What [open(JSON_INPUT_FILE)] and [json.load] find: no file, a file
    that [json.load] cannot decode, or a document. *)
Inductive input : Type :=
| NoFile
| NotJson
| Json (doc : pyval).

(** What the catch-all handler caught: the decoding error of
    [json.load], or an exception of the extractor or of a report loop. *)
Inductive failure : Type :=
| DecodeError
| Raised (e : exn).

(** The lines printed: the two confirmations, the guidance of the
    [FileNotFoundError] handler, and "An error occurred: ...". *)
Inductive message : Type :=
| CsvGenerated
| MarkdownGenerated
| InputNotFound
| ErrorOccurred (f : failure).

(** An output file after the run: not opened, opened for writing and
    left by an exception, or written to the end. *)
Inductive file (A : Type) : Type :=
| Untouched
| Partial
| Written (content : A).

Arguments Untouched {A}.
Arguments Partial {A}.
Arguments Written {A} content.

Record outcome : Type := {
  csv_file : file (list (list string));
  md_file : file (list string);
  stdout : list message
}.

(** The [__main__] block: read, extract, write the CSV report, then the
    Markdown report; the first exception ends the run in a handler.
    Errors of the operating system and of the text encoding on the two
    output files are not modelled. *)
Definition main (CHECKLIST_DATE : string) (inp : input) : outcome :=
  match inp with
  | NoFile =>
      {| csv_file := Untouched; md_file := Untouched;
         stdout := [InputNotFound] |}
  | NotJson =>
      {| csv_file := Untouched; md_file := Untouched;
         stdout := [ErrorOccurred DecodeError] |}
  | Json ansible_json_output =>
      match parse_ansible_json ansible_json_output with
      | Raise e =>
          {| csv_file := Untouched; md_file := Untouched;
             stdout := [ErrorOccurred (Raised e)] |}
      | Ok parsed_results =>
          match csv_report parsed_results with
          | Raise e =>
              {| csv_file := Partial; md_file := Untouched;
                 stdout := [ErrorOccurred (Raised e)] |}
          | Ok rows =>
              match md_report CHECKLIST_DATE parsed_results with
              | Raise e =>
                  {| csv_file := Written rows; md_file := Partial;
                     stdout := [CsvGenerated; ErrorOccurred (Raised e)] |}
              | Ok chunks =>
                  {| csv_file := Written rows; md_file := Written chunks;
                     stdout := [CsvGenerated; MarkdownGenerated] |}
              end
          end
      end
  end.

(* ================================================================== *)
(** * Properties *)

(* ================================================================== *)
(** ** The error monad: basic facts *)

Lemma bind_ok {A B : Type} (c : result A) (k : A -> result B) (b : B) :
  bind c k = Ok b -> exists a, c = Ok a /\ k a = Ok b.
Proof.
  destruct c as [a|e]; simpl; intros H; [exists a; auto | discriminate].
Qed.

Lemma bind_assoc {A B C : Type} (c : result A) (k : A -> result B)
    (h : B -> result C) :
  bind (bind c k) h = bind c (fun a => bind (k a) h).
Proof. destruct c; reflexivity. Qed.

Ltac inv_bind H :=
  let a := fresh "a" in
  let Ha := fresh "Ha" in
  apply bind_ok in H; destruct H as (a & Ha & H).

(* ================================================================== *)
(** ** Assembling the diagnostic lines *)

Lemma append_msg_acc name t acc :
  append_msg name t acc = (ls <- append_msg name t [] ;; Ok (acc ++ ls)).
Proof.
  unfold append_msg. destruct (task_name t) as [n|e]; simpl; [|reflexivity].
  destruct (py_eq_str n name); simpl.
  - destruct (result_msg t PNone); reflexivity.
  - now rewrite app_nil_r.
Qed.

Lemma extend_lines_acc name t acc :
  extend_lines name t acc = (ls <- extend_lines name t [] ;; Ok (acc ++ ls)).
Proof.
  unfold extend_lines. destruct (task_name t) as [n|e]; simpl; [|reflexivity].
  destruct (py_eq_str n name); simpl.
  - destruct (result_msg t (PStr "")) as [m|e]; simpl; [|reflexivity].
    destruct (py_strip m); reflexivity.
  - now rewrite app_nil_r.
Qed.

Lemma task_step_acc acc t :
  task_step acc t = (ls <- task_lines t ;; Ok (acc ++ ls)).
Proof.
  unfold task_lines, task_step.
  rewrite (append_msg_acc NAME_REBOOT t acc).
  destruct (append_msg NAME_REBOOT t []) as [l1|e]; simpl; [|reflexivity].
  rewrite (append_msg_acc NAME_PKG t (acc ++ l1)), (append_msg_acc NAME_PKG t l1).
  destruct (append_msg NAME_PKG t []) as [l2|e]; simpl; [|reflexivity].
  rewrite (append_msg_acc NAME_KERNEL t ((acc ++ l1) ++ l2)),
    (append_msg_acc NAME_KERNEL t (l1 ++ l2)).
  destruct (append_msg NAME_KERNEL t []) as [l3|e]; simpl; [|reflexivity].
  rewrite (extend_lines_acc NAME_CLAMAV t (((acc ++ l1) ++ l2) ++ l3)),
    (extend_lines_acc NAME_CLAMAV t ((l1 ++ l2) ++ l3)).
  destruct (extend_lines NAME_CLAMAV t []) as [l4|e]; simpl; [|reflexivity].
  rewrite (extend_lines_acc NAME_JAVA t ((((acc ++ l1) ++ l2) ++ l3) ++ l4)),
    (extend_lines_acc NAME_JAVA t (((l1 ++ l2) ++ l3) ++ l4)).
  destruct (extend_lines NAME_JAVA t []) as [l5|e]; simpl; [|reflexivity].
  now rewrite <- !app_assoc.
Qed.

Lemma collect_msgs_acc acc ts :
  collect_msgs acc ts = (ls <- collect_msgs [] ts ;; Ok (acc ++ ls)).
Proof.
  revert acc. induction ts as [|t ts IH]; intros acc; simpl.
  - now rewrite app_nil_r.
  - rewrite (task_step_acc acc t), (task_step_acc [] t).
    destruct (task_lines t) as [l|e]; simpl; [|reflexivity].
    rewrite (IH (acc ++ l)), (IH l).
    destruct (collect_msgs [] ts) as [ls|e]; simpl; [|reflexivity].
    now rewrite app_assoc.
Qed.

Lemma collect_msgs_cons t ts :
  collect_msgs [] (t :: ts) =
  (l <- task_lines t ;; ls <- collect_msgs [] ts ;; Ok (l ++ ls)).
Proof.
  simpl. rewrite (task_step_acc [] t).
  destruct (task_lines t) as [l|e]; simpl; [|reflexivity].
  apply collect_msgs_acc.
Qed.

(** The line set is the concatenation, in the order of the task
    outcomes, of what each outcome contributes. *)
Lemma collect_msgs_concat ts out :
  collect_msgs [] ts = Ok out <->
  exists ls, Forall2 (fun t l => task_lines t = Ok l) ts ls /\ out = concat ls.
Proof.
  revert out. induction ts as [|t ts IH]; intros out.
  - simpl. split.
    + intros [= <-]. exists []. split; [constructor | reflexivity].
    + intros (ls & HF & ->). inversion HF; subst. reflexivity.
  - rewrite collect_msgs_cons. split.
    + intros H. inv_bind H. inv_bind H. injection H as <-.
      apply IH in Ha0. destruct Ha0 as (ls & HF & ->).
      exists (a :: ls). split; [constructor; assumption | reflexivity].
    + intros (ls & HF & ->). inversion HF as [|? l ? ls' Ht HF']; subst.
      rewrite Ht. simpl.
      assert (Hc : collect_msgs [] ts = Ok (concat ls'))
        by (apply IH; exists ls'; auto).
      rewrite Hc. reflexivity.
Qed.

Lemma task_lines_contribution t : task_lines t = contribution t.
Proof.
  unfold task_lines, contribution, task_step, append_msg, extend_lines,
    single_line_name, multi_line_name.
  destruct (task_name t) as [n|e]; simpl; [|reflexivity].
  destruct n as [| | | |s| |]; simpl; try reflexivity.
  destruct (String.eqb_spec s NAME_REBOOT) as [->|H1].
  { simpl. destruct (result_msg t PNone); reflexivity. }
  destruct (String.eqb_spec s NAME_PKG) as [->|H2].
  { simpl. destruct (result_msg t PNone); reflexivity. }
  destruct (String.eqb_spec s NAME_KERNEL) as [->|H3].
  { simpl. destruct (result_msg t PNone); reflexivity. }
  destruct (String.eqb_spec s NAME_CLAMAV) as [->|H4].
  { simpl. destruct (result_msg t (PStr "")) as [m|e]; simpl; [|reflexivity].
    destruct (py_strip m); reflexivity. }
  destruct (String.eqb_spec s NAME_JAVA) as [->|H5].
  { simpl. destruct (result_msg t (PStr "")) as [m|e]; simpl; [|reflexivity].
    destruct (py_strip m); reflexivity. }
  reflexivity.
Qed.

(* ================================================================== *)
(** ** Facts about the string methods *)

Lemma prefix_app (p s : string) :
  String.prefix p s = true <-> exists r, s = (p ++ r)%string.
Proof.
  revert s. induction p as [|c p IH]; intros s.
  - split; [intros _; exists s; reflexivity | destruct s; reflexivity].
  - destruct s as [|d s]; simpl.
    + split; [discriminate | intros (r & H); discriminate].
    + destruct (ascii_dec c d) as [->|Hcd].
      * rewrite IH. split; intros (r & H); exists r.
        -- now subst.
        -- now injection H.
      * split; [discriminate | intros (r & H); injection H; congruence].
Qed.

(** [contains] decides the substring relation. *)
Lemma contains_spec (sub s : string) :
  contains sub s = true <-> substring_of sub s.
Proof.
  unfold substring_of.
  induction s as [|c s IH]; cbn [contains].
  - rewrite orb_false_r, prefix_app. split.
    + intros (r & H). exists EmptyString, r. exact H.
    + intros (pre & post & H). destruct pre; [|discriminate].
      exists post. exact H.
  - rewrite orb_true_iff. split.
    + intros [H|H].
      * apply prefix_app in H. destruct H as (r & H).
        exists EmptyString, r. exact H.
      * apply IH in H. destruct H as (pre & post & ->).
        exists (String c pre), post. reflexivity.
    + intros (pre & post & H). destruct pre as [|d pre].
      * left. apply prefix_app. exists post. exact H.
      * right. apply IH. simpl in H. injection H as _ ->.
        exists pre, post. reflexivity.
Qed.

Lemma split_on_head sep s : exists t, split_on sep s = before_sep sep s :: t.
Proof.
  induction s as [|c s (t & IH)]; simpl.
  - exists []. reflexivity.
  - destruct (Ascii.eqb c sep).
    + eexists. reflexivity.
    + rewrite IH. eexists. reflexivity.
Qed.

Lemma list_index_0 {A : Type} (x : A) (l : list A) : list_index (x :: l) 0 = Ok x.
Proof.
  unfold list_index. cbn [length Z.ltb Z.compare].
  replace (Z.of_nat (S (length l)) <=? 0) with false; [reflexivity|].
  symmetry. apply Z.leb_gt. lia.
Qed.

Lemma list_index_last {A : Type} (l : list A) (x : A) :
  list_index (l ++ [x]) (-1) = Ok x.
Proof.
  unfold list_index. rewrite length_app. cbn [length Z.ltb Z.compare].
  replace (-1 + Z.of_nat (length l + 1)) with (Z.of_nat (length l)) by lia.
  replace (Z.of_nat (length l) <? 0) with false
    by (symmetry; apply Z.ltb_ge; lia).
  replace (Z.of_nat (length l + 1) <=? Z.of_nat (length l)) with false
    by (symmetry; apply Z.leb_gt; lia).
  cbn [orb]. rewrite Nat2Z.id, nth_error_app2, Nat.sub_diag by lia.
  reflexivity.
Qed.

Lemma first_field_before x : first_field x = Ok (before_sep " " x).
Proof.
  unfold first_field. destruct (split_on_head " " x) as (t & ->).
  apply list_index_0.
Qed.

Lemma before_sep_spec sep s : text_before sep s (before_sep sep s).
Proof.
  unfold text_before. induction s as [|c s (IH1 & IH2)]; simpl.
  - split; [tauto | left; reflexivity].
  - destruct (Ascii.eqb_spec c sep) as [->|Hc]; simpl.
    + split; [tauto | right; exists s; reflexivity].
    + split; [intros [?|?]; [congruence | tauto] |].
      destruct IH2 as [IH2 | (r & IH2)].
      * left. congruence.
      * right. exists r. congruence.
Qed.

Lemma text_before_eq sep s t : text_before sep s t -> t = before_sep sep s.
Proof.
  revert t. induction s as [|c s IH]; intros t (N & H).
  - destruct H as [<-|(r & H)]; [reflexivity|].
    destruct t; discriminate.
  - destruct t as [|d t]; simpl in *.
    + destruct H as [H|(r & H)]; [discriminate|].
      injection H as -> _. now rewrite Ascii.eqb_refl.
    + assert (c = d /\ text_before sep s t) as (-> & T).
      { destruct H as [H|(r & H)]; injection H as -> ->;
          (split; [reflexivity | split; [tauto|]]);
          [left | right; exists r]; reflexivity. }
      destruct (Ascii.eqb_spec d sep) as [->|_]; [tauto|].
      f_equal. now apply IH.
Qed.

Lemma lstrip_shape s :
  lstrip s = EmptyString
  \/ exists c r, lstrip s = String c r /\ is_space c = false.
Proof.
  induction s as [|c s IH]; simpl; [now left|].
  destruct (is_space c) eqn:E; [exact IH|].
  right. exists c, s. auto.
Qed.

Lemma strip_no_leading s : lstrip (strip s) = strip s.
Proof.
  unfold strip. destruct (lstrip_shape s) as [->|(c & r & -> & Hc)].
  - reflexivity.
  - cbn [rstrip]. destruct (rstrip r); [rewrite Hc|]; simpl; now rewrite Hc.
Qed.

(** Where the space is the only whitespace, cutting at the first space
    gives the first whitespace-delimited token. *)
Lemma before_sep_token s :
  lstrip s = s -> space_only s -> before_sep " " s = spec_first_token s.
Proof.
  unfold spec_first_token. intros -> Hs.
  induction s as [|c s IH]; simpl; [reflexivity|].
  destruct (Ascii.eqb_spec c " "%char) as [->|Hc]; [reflexivity|].
  destruct (is_space c) eqn:E.
  - exfalso. apply Hc. apply Hs; [now left | exact E].
  - f_equal. apply IH. intros d Hd. apply Hs. now right.
Qed.

(* ================================================================== *)
(** ** Facts about [extract_value] *)

Lemma extract_value_str s rest p :
  extract_value (PStr s :: rest) p =
  if startswith s p then value_of s else extract_value rest p.
Proof. reflexivity. Qed.

(** The scan-miss path. *)
Lemma extract_value_miss lines p :
  Forall (unlabelled p) lines -> extract_value lines p = Ok "N/A"%string.
Proof.
  induction 1 as [|v lines (s & -> & Hs) _ IH]; [reflexivity|].
  rewrite extract_value_str, Hs. exact IH.
Qed.

(** A value returned by the scan has no leading whitespace. *)
Lemma extract_value_stripped lines p raw :
  extract_value lines p = Ok raw -> lstrip raw = raw.
Proof.
  induction lines as [|line lines IH]; simpl.
  - intros [= <-]. reflexivity.
  - destruct line; try discriminate.
    destruct (startswith s p); [|exact IH].
    intros H. inv_bind H. injection H as <-. apply strip_no_leading.
Qed.

(** When every line is one of the strings [univ], some line carries the
    label, and all the strings of [univ] that carry it have the value
    [v], the scan returns [v] wherever the lines stand. *)
Lemma extract_value_among (univ : list string) lines p v :
  Forall (fun x => exists s, x = PStr s /\ In s univ) lines ->
  (forall s, In s univ -> startswith s p = true -> value_of s = Ok v) ->
  (exists s, In (PStr s) lines /\ startswith s p = true) ->
  extract_value lines p = Ok v.
Proof.
  intros HF Hv. induction HF as [|x lines (s & -> & Hs) _ IH].
  - intros (s & [] & _).
  - intros (s' & Hin & Hp). rewrite extract_value_str.
    destruct (startswith s p) eqn:E.
    + now apply Hv.
    + apply IH. exists s'. split; [|exact Hp].
      destruct Hin as [[= ->]|Hin]; [congruence | exact Hin].
Qed.

(* ================================================================== *)
(** ** Facts about dicts and the loop over hosts *)

Lemma dict_set_in {A : Type} (d : dict A) k v k' v' :
  In (k', v') (dict_set d k v) -> (k' = k /\ v' = v) \/ In (k', v') d.
Proof.
  induction d as [|[k0 v0] d IH]; simpl.
  - intros [[= <- <-]|[]]. now left.
  - destruct (String.eqb_spec k0 k) as [->|Hk]; simpl.
    + intros [[= <- <-]|H]; [now left | right; now right].
    + intros [H|H]; [right; now left|].
      destruct (IH H); [now left | right; now right].
Qed.

Lemma dict_set_keys {A : Type} (d : dict A) k v k' :
  In k' (dict_keys (dict_set d k v)) <-> k' = k \/ In k' (dict_keys d).
Proof.
  unfold dict_keys. induction d as [|[k0 v0] d IH]; simpl.
  - intuition congruence.
  - destruct (String.eqb_spec k0 k) as [->|Hk]; simpl.
    + intuition congruence.
    + rewrite IH. intuition congruence.
Qed.

Lemma dict_set_nodup {A : Type} (d : dict A) k v :
  NoDup (dict_keys d) -> NoDup (dict_keys (dict_set d k v)).
Proof.
  unfold dict_keys. induction d as [|[k0 v0] d IH]; simpl; intros H.
  - constructor; [intros [] | constructor].
  - inversion H as [|? ? Hn Hd]; subst.
    destruct (String.eqb_spec k0 k) as [->|Hk]; simpl.
    + now constructor.
    + constructor; [|now apply IH].
      intros Hin. apply (dict_set_keys d k v k0) in Hin.
      destruct Hin; [congruence | contradiction].
Qed.

Lemma dict_set_fresh {A : Type} (d : dict A) k v :
  ~ In k (dict_keys d) -> dict_set d k v = d ++ [(k, v)].
Proof.
  unfold dict_keys. induction d as [|[k0 v0] d IH]; simpl; intros H.
  - reflexivity.
  - destruct (String.eqb_spec k0 k) as [->|Hk]; [tauto|].
    f_equal. apply IH. tauto.
Qed.

(** Every record of the result was computed from the data of a host of
    that name; the result has one key per host, none twice. *)
Lemma host_loop_inv items : forall acc out,
  host_loop acc items = Ok out ->
  (forall h r, In (h, r) out ->
     In (h, r) acc \/ exists hd, In (h, hd) items /\ host_record hd = Ok r)
  /\ (forall h, In h (dict_keys out) <->
                In h (dict_keys acc) \/ In h (dict_keys items))
  /\ (NoDup (dict_keys acc) -> NoDup (dict_keys out)).
Proof.
  induction items as [|[host hd] items IH]; intros acc out H; simpl in H.
  - injection H as <-. split; [|split].
    + intros h r Hin. now left.
    + intros h. simpl. tauto.
    + auto.
  - inv_bind H. apply IH in H. destruct H as (H1 & H2 & H3).
    split; [|split].
    + intros h r Hin. destruct (H1 h r Hin) as [Hacc|(hd' & Hi & Hr)].
      * apply dict_set_in in Hacc. destruct Hacc as [(-> & ->)|Hacc].
        -- right. exists hd. split; [now left | assumption].
        -- now left.
      * right. exists hd'. split; [now right | assumption].
    + intros h. rewrite H2, dict_set_keys. simpl. intuition.
    + intros Hn. apply H3. now apply dict_set_nodup.
Qed.

(** With distinct host names the records come out in the order of the
    hosts. *)
Lemma host_loop_ordered items : forall acc out,
  NoDup (dict_keys acc ++ dict_keys items) ->
  host_loop acc items = Ok out ->
  exists rs,
    Forall2 (fun it r => host_record (snd it) = Ok r) items rs
    /\ out = acc ++ combine (dict_keys items) rs.
Proof.
  induction items as [|[host hd] items IH]; intros acc out Hn H; simpl in H.
  - injection H as <-. exists []. split; [constructor|].
    simpl. now rewrite app_nil_r.
  - inv_bind H. simpl in Hn.
    assert (Hf : ~ In host (dict_keys acc)).
    { apply NoDup_remove_2 in Hn. intros Hin. apply Hn.
      apply in_or_app. now left. }
    rewrite (dict_set_fresh acc host a Hf) in H.
    apply IH in H.
    + destruct H as (rs & HF & ->). exists (a :: rs). split.
      * constructor; assumption.
      * simpl. now rewrite <- app_assoc.
    + unfold dict_keys in *. rewrite map_app, <- app_assoc. simpl.
      apply NoDup_remove_1 in Hn as Hn1.
      apply NoDup_remove_2 in Hn as Hn2.
      apply Permutation_NoDup with (l := host :: map fst acc ++ map fst items).
      * apply Permutation_middle.
      * now constructor.
Qed.

(* ================================================================== *)
(** ** From the document to one host's record *)

Lemma parse_unfold doc :
  parse_ansible_json doc = (items <- selected_items doc ;; host_loop [] items).
Proof.
  unfold parse_ansible_json, selected_items. now rewrite bind_assoc.
Qed.

Lemma selects_items doc hosts : selects doc hosts -> selected_items doc = Ok hosts.
Proof.
  intros (d & play & rest & groups & group & -> & Hp & Ht & H).
  unfold selected_items, selected_hosts.
  cbn [py_get bind]. rewrite Hp. cbn [py_index]. rewrite list_index_0.
  cbn [py_get bind]. rewrite Ht. cbn [py_index]. rewrite list_index_last.
  cbn [py_get bind].
  destruct H as [H|(H & ->)]; rewrite H; reflexivity.
Qed.

Lemma list_index_0_inv {A : Type} (l : list A) (x : A) :
  list_index l 0 = Ok x -> exists r, l = x :: r.
Proof.
  destruct l as [|y r]; [discriminate|].
  rewrite list_index_0. intros [= ->]. now exists r.
Qed.

Lemma list_index_last_inv {A : Type} (l : list A) (x : A) :
  list_index l (-1) = Ok x -> exists l', l = l' ++ [x].
Proof.
  destruct l as [|y r]; [discriminate|].
  destruct (exists_last (l := y :: r)) as (l' & a & ->); [discriminate|].
  rewrite list_index_last. intros [= ->]. now exists l'.
Qed.

(** The traversal succeeds on the documents of that shape only. *)
Lemma selected_items_selects doc hosts :
  selected_items doc = Ok hosts -> selects doc hosts.
Proof.
  unfold selected_items, selected_hosts. intros H.
  destruct doc as [| | | | | |d]; try discriminate.
  cbn [py_get bind] in H.
  destruct (dict_get d "plays") as [plays|] eqn:Hp; [|discriminate].
  destruct plays as [| | | |s|l|]; try discriminate.
  { cbn [py_index bind] in H.
    destruct (list_index (chars s) 0); discriminate. }
  cbn [py_index] in H.
  destruct (list_index l 0) as [play|e] eqn:Hl; [|discriminate].
  apply list_index_0_inv in Hl. destruct Hl as (rest & ->).
  cbn [bind] in H.
  destruct play as [| | | | | |play]; try discriminate.
  cbn [py_get bind] in H.
  destruct (dict_get play "tasks") as [tasks|] eqn:Ht; [|discriminate].
  destruct tasks as [| | | |s|groups|]; try discriminate.
  { cbn [py_index bind] in H.
    destruct (list_index (chars s) (-1)); discriminate. }
  cbn [py_index] in H.
  destruct (list_index groups (-1)) as [group|e] eqn:Hg; [|discriminate].
  apply list_index_last_inv in Hg. destruct Hg as (groups' & ->).
  cbn [bind] in H.
  destruct group as [| | | | | |group]; try discriminate.
  cbn [py_get bind] in H.
  exists d, play, rest, groups', group.
  split; [reflexivity|]. split; [exact Hp|]. split; [exact Ht|].
  destruct (dict_get group "hosts") as [h|] eqn:Hh.
  - destruct h; try discriminate. injection H as ->. now left.
  - injection H as <-. right. auto.
Qed.

Lemma parse_processed doc results host rec :
  parse_ansible_json doc = Ok results -> In (host, rec) results ->
  exists lines, processed doc host lines rec.
Proof.
  rewrite parse_unfold. intros H Hin. inv_bind H.
  apply host_loop_inv in H. destruct H as (H1 & _).
  destruct (H1 host rec Hin) as [[]|(hd & Hi & Hr)].
  unfold host_record in Hr. inv_bind Hr.
  exists a0, a, hd. auto.
Qed.

(** The five scans and the three derived fields behind a record. *)
Lemma lines_record_inv lines rec :
  lines_record lines = Ok rec ->
  exists last_reboot last_pkg_upgrade kernel_version clamav_update
         java_status rocky clam,
    extract_value lines LABEL_REBOOT = Ok last_reboot
    /\ extract_value lines LABEL_PKG = Ok last_pkg_upgrade
    /\ extract_value lines LABEL_KERNEL = Ok kernel_version
    /\ extract_value lines LABEL_CLAMAV = Ok clamav_update
    /\ extract_value lines LABEL_JAVA = Ok java_status
    /\ rocky_status last_pkg_upgrade = Ok rocky
    /\ clamav_status clamav_update = Ok clam
    /\ rec = [ ("Rocky Updated"%string, rocky);
               ("ClamAV Updated"%string, clam);
               ("Last Reboot"%string, last_reboot);
               ("Kernel Version"%string, kernel_version);
               ("Java Running"%string, java_flag java_status) ].
Proof.
  unfold lines_record. intros H.
  apply bind_ok in H. destruct H as (v1 & E1 & H).
  apply bind_ok in H. destruct H as (v2 & E2 & H).
  apply bind_ok in H. destruct H as (v3 & E3 & H).
  apply bind_ok in H. destruct H as (v4 & E4 & H).
  apply bind_ok in H. destruct H as (v5 & E5 & H).
  apply bind_ok in H. destruct H as (r & E6 & H).
  apply bind_ok in H. destruct H as (c & E7 & H).
  injection H as <-.
  exists v1, v2, v3, v4, v5, r, c. repeat split; assumption.
Qed.

Lemma rocky_status_eq raw :
  rocky_status raw =
  Ok (if String.eqb raw DNF_SENTINEL then "N/A"
      else "Last Pkg: " ++ before_sep " " raw)%string.
Proof.
  unfold rocky_status. destruct (String.eqb raw DNF_SENTINEL); simpl.
  - reflexivity.
  - now rewrite first_field_before.
Qed.

Lemma clamav_status_eq raw :
  clamav_status raw =
  Ok (if contains DB_MISSING raw then "N/A"
      else "Last AV: " ++ before_sep " " raw)%string.
Proof.
  unfold clamav_status. destruct (contains DB_MISSING raw); simpl.
  - reflexivity.
  - now rewrite first_field_before.
Qed.

(* ================================================================== *)
(** ** The Rocky-update status *)

(** C2, as stated, fails: the package-upgrade message
    "Date of Last Package Upgrade: 2024-03-02<TAB>00:00:00" has the raw
    value "2024-03-02<TAB>00:00:00", which is not the DNF sentinel and
    whose first whitespace-delimited token is "2024-03-02"; the status is
    "Last Pkg: " followed by the whole raw value, the tab included,
    because [split(' ')] cuts at space characters only. *)
Lemma rocky_status_tab_counterexample :
  host_lines (host_with [task_with_msg NAME_PKG
      ("Date of Last Package Upgrade: " ++ raw_with_tab)%string])
    = Ok [PStr ("Date of Last Package Upgrade: " ++ raw_with_tab)%string]
  /\ extract_value
       [PStr ("Date of Last Package Upgrade: " ++ raw_with_tab)%string]
       LABEL_PKG = Ok raw_with_tab
  /\ raw_with_tab <> DNF_SENTINEL
  /\ spec_first_token raw_with_tab = "2024-03-02"%string
  /\ parse_ansible_json tab_pkg_document =
       Ok [("web01"%string,
            [ ("Rocky Updated", "Last Pkg: " ++ raw_with_tab);
              ("ClamAV Updated", "Last AV: N/A");
              ("Last Reboot", "N/A");
              ("Kernel Version", "N/A");
              ("Java Running", "No") ]%string)]
  /\ ("Last Pkg: " ++ raw_with_tab)%string
       <> ("Last Pkg: " ++ spec_first_token raw_with_tab)%string.
Proof.
  repeat split; try (vm_compute; reflexivity); vm_compute; discriminate.
Qed.

(** C2 (amended): for every host processed by the extractor, the
    Rocky-update status is "Last Pkg: " followed by the text of the raw
    "Date of Last Package Upgrade" value before its first space
    character if and only if the raw value differs from the sentinel
    "N/A - Could not determine from DNF history."; otherwise it is
    "N/A".  Where the raw value has no whitespace other than spaces,
    that text is its first whitespace-delimited token. *)
Theorem rocky_updated_field doc results host rec :
  parse_ansible_json doc = Ok results -> In (host, rec) results ->
  exists lines raw tok,
    processed doc host lines rec
    /\ extract_value lines LABEL_PKG = Ok raw
    /\ text_before " " raw tok
    /\ (dict_get rec "Rocky Updated" = Some ("Last Pkg: " ++ tok)%string
        <-> raw <> DNF_SENTINEL)
    /\ (raw = DNF_SENTINEL ->
        dict_get rec "Rocky Updated" = Some "N/A"%string)
    /\ (space_only raw -> tok = spec_first_token raw).
Proof.
  intros Hp Hin.
  destruct (parse_processed _ _ _ _ Hp Hin) as (lines & Hproc).
  assert (Hrec : lines_record lines = Ok rec)
    by (destruct Hproc as (? & ? & _ & _ & _ & H); exact H).
  apply lines_record_inv in Hrec.
  destruct Hrec as (rb & raw & kv & cu & js & rs & cs
                    & _ & Eraw & _ & _ & _ & Ers & _ & ->).
  rewrite rocky_status_eq in Ers. injection Ers as <-.
  exists lines, raw, (before_sep " " raw).
  split; [exact Hproc|]. split; [exact Eraw|].
  split; [apply before_sep_spec|].
  cbn [dict_get String.eqb Ascii.eqb Bool.eqb].
  destruct (String.eqb raw DNF_SENTINEL) eqn:E.
  - apply String.eqb_eq in E.
    split; [split; [discriminate | congruence] |].
    split; [reflexivity|].
    apply before_sep_token. eapply extract_value_stripped, Eraw.
  - apply String.eqb_neq in E.
    split; [split; [intros _; exact E | reflexivity] |].
    split; [congruence|].
    apply before_sep_token. eapply extract_value_stripped, Eraw.
Qed.

Lemma rocky_updated_field_witness :
  exists lines raw tok,
    processed web01_document "web01" lines web01_record
    /\ extract_value lines LABEL_PKG = Ok raw
    /\ text_before " " raw tok
    /\ (dict_get web01_record "Rocky Updated" = Some ("Last Pkg: " ++ tok)%string
        <-> raw <> DNF_SENTINEL)
    /\ (raw = DNF_SENTINEL ->
        dict_get web01_record "Rocky Updated" = Some "N/A"%string)
    /\ (space_only raw -> tok = spec_first_token raw).
Proof.
  apply (rocky_updated_field web01_document [("web01"%string, web01_record)]).
  - vm_compute. reflexivity.
  - left. reflexivity.
Defined.

(* ================================================================== *)
(** ** The ClamAV-update status *)

(** C3, as stated, fails twice.  A raw ClamAV value
    "2024-03-03<TAB>01:00:00" does not contain "database file not
    found" and its first whitespace-delimited token is "2024-03-03", but
    the status keeps the whole value, [split(' ')] cutting at spaces
    only.  And a host without any ClamAV-display task has a raw value
    other than "N/A" when another named task's message starts with the
    ClamAV label. *)
Lemma clamav_status_counterexample :
  (parse_ansible_json (run_document [("web01"%string, tab_clamav_host)]) =
     Ok [("web01"%string,
          [ ("Rocky Updated", "Last Pkg: N/A");
            ("ClamAV Updated", "Last AV: " ++ clamav_raw_with_tab);
            ("Last Reboot", "N/A");
            ("Kernel Version", "N/A");
            ("Java Running", "No") ]%string)]
   /\ (l <- host_lines tab_clamav_host ;; extract_value l LABEL_CLAMAV)
      = Ok clamav_raw_with_tab
   /\ contains DB_MISSING clamav_raw_with_tab = false
   /\ spec_first_token clamav_raw_with_tab = "2024-03-03"%string
   /\ ("Last AV: " ++ clamav_raw_with_tab)%string
      <> ("Last AV: " ++ spec_first_token clamav_raw_with_tab)%string)
  /\ (parse_ansible_json (run_document [("web01"%string, stray_label_host)]) =
        Ok [("web01"%string,
             [ ("Rocky Updated", "Last Pkg: N/A");
               ("ClamAV Updated", "Last AV: 2024-03-03");
               ("Last Reboot", "N/A");
               ("Kernel Version", "N/A");
               ("Java Running", "No") ]%string)]
      /\ (l <- host_lines stray_label_host ;; extract_value l LABEL_CLAMAV)
         = Ok "2024-03-03 01:00:00"%string).
Proof.
  repeat split; try (vm_compute; reflexivity); vm_compute; discriminate.
Qed.

(** C3 (amended): for every host processed by the extractor, the
    ClamAV-update status is "Last AV: " followed by the text of the raw
    ClamAV value before its first space character if and only if the
    raw value does not contain "database file not found"; otherwise it
    is "N/A".  In particular, when no diagnostic line of the host starts
    with the ClamAV label, the raw value is "N/A" and the status is
    "Last AV: N/A".  Where the raw value has no whitespace other than
    spaces, the text before its first space is its first
    whitespace-delimited token. *)
Theorem clamav_updated_field doc results host rec :
  parse_ansible_json doc = Ok results -> In (host, rec) results ->
  exists lines raw tok,
    processed doc host lines rec
    /\ extract_value lines LABEL_CLAMAV = Ok raw
    /\ text_before " " raw tok
    /\ (dict_get rec "ClamAV Updated" = Some ("Last AV: " ++ tok)%string
        <-> ~ substring_of DB_MISSING raw)
    /\ (substring_of DB_MISSING raw ->
        dict_get rec "ClamAV Updated" = Some "N/A"%string)
    /\ (Forall (unlabelled LABEL_CLAMAV) lines ->
        raw = "N/A"%string
        /\ dict_get rec "ClamAV Updated" = Some "Last AV: N/A"%string)
    /\ (space_only raw -> tok = spec_first_token raw).
Proof.
  intros Hp Hin.
  destruct (parse_processed _ _ _ _ Hp Hin) as (lines & Hproc).
  assert (Hrec : lines_record lines = Ok rec)
    by (destruct Hproc as (? & ? & _ & _ & _ & H); exact H).
  apply lines_record_inv in Hrec.
  destruct Hrec as (rb & pk & kv & raw & js & rs & cs
                    & _ & _ & _ & Eraw & _ & _ & Ecs & ->).
  rewrite clamav_status_eq in Ecs. injection Ecs as <-.
  exists lines, raw, (before_sep " " raw).
  split; [exact Hproc|]. split; [exact Eraw|].
  split; [apply before_sep_spec|].
  cbn [dict_get String.eqb Ascii.eqb Bool.eqb].
  split; [|split; [|split]].
  - destruct (contains DB_MISSING raw) eqn:E.
    + apply contains_spec in E. split; [discriminate | intros H; now elim H].
    + split; [|reflexivity]. intros _ H. apply contains_spec in H. congruence.
  - intros H. apply contains_spec in H. unfold substring_of in H.
    now rewrite H.
  - intros HF. apply extract_value_miss in HF.
    rewrite HF in Eraw. injection Eraw as <-. split; reflexivity.
  - apply before_sep_token. eapply extract_value_stripped, Eraw.
Qed.

Lemma clamav_updated_field_witness :
  exists lines raw tok,
    processed web01_document "web01" lines web01_record
    /\ extract_value lines LABEL_CLAMAV = Ok raw
    /\ text_before " " raw tok
    /\ (dict_get web01_record "ClamAV Updated" = Some ("Last AV: " ++ tok)%string
        <-> ~ substring_of DB_MISSING raw)
    /\ (substring_of DB_MISSING raw ->
        dict_get web01_record "ClamAV Updated" = Some "N/A"%string)
    /\ (Forall (unlabelled LABEL_CLAMAV) lines ->
        raw = "N/A"%string
        /\ dict_get web01_record "ClamAV Updated" = Some "Last AV: N/A"%string)
    /\ (space_only raw -> tok = spec_first_token raw).
Proof.
  apply (clamav_updated_field web01_document [("web01"%string, web01_record)]).
  - vm_compute. reflexivity.
  - left. reflexivity.
Defined.

(* ================================================================== *)
(** ** The Java-running flag *)

(** C4: for every host processed by the extractor, the Java-running
    flag is "Yes" if and only if the raw "Java Running Status" value
    contains "Yes, Java processes found."; every other raw value, the
    scan-miss sentinel "N/A" among them, gives "No". *)
Theorem java_running_field doc results host rec :
  parse_ansible_json doc = Ok results -> In (host, rec) results ->
  exists lines raw,
    processed doc host lines rec
    /\ extract_value lines LABEL_JAVA = Ok raw
    /\ (dict_get rec "Java Running" = Some "Yes"%string
        <-> substring_of JAVA_FOUND raw)
    /\ (~ substring_of JAVA_FOUND raw ->
        dict_get rec "Java Running" = Some "No"%string)
    /\ (raw = "N/A"%string ->
        dict_get rec "Java Running" = Some "No"%string).
Proof.
  intros Hp Hin.
  destruct (parse_processed _ _ _ _ Hp Hin) as (lines & Hproc).
  assert (Hrec : lines_record lines = Ok rec)
    by (destruct Hproc as (? & ? & _ & _ & _ & H); exact H).
  apply lines_record_inv in Hrec.
  destruct Hrec as (rb & pk & kv & cu & raw & rs & cs
                    & _ & _ & _ & _ & Eraw & _ & _ & ->).
  exists lines, raw.
  split; [exact Hproc|]. split; [exact Eraw|].
  cbn [dict_get String.eqb Ascii.eqb Bool.eqb]. unfold java_flag.
  split; [|split].
  - destruct (contains JAVA_FOUND raw) eqn:E.
    + apply contains_spec in E. split; [intros _; exact E | reflexivity].
    + split; [discriminate|]. intros H. apply contains_spec in H. congruence.
  - intros H. destruct (contains JAVA_FOUND raw) eqn:E; [|reflexivity].
    apply contains_spec in E. contradiction.
  - intros ->. reflexivity.
Qed.

Lemma java_running_field_witness :
  exists lines raw,
    processed web01_document "web01" lines web01_record
    /\ extract_value lines LABEL_JAVA = Ok raw
    /\ (dict_get web01_record "Java Running" = Some "Yes"%string
        <-> substring_of JAVA_FOUND raw)
    /\ (~ substring_of JAVA_FOUND raw ->
        dict_get web01_record "Java Running" = Some "No"%string)
    /\ (raw = "N/A"%string ->
        dict_get web01_record "Java Running" = Some "No"%string).
Proof.
  apply (java_running_field web01_document [("web01"%string, web01_record)]).
  - vm_compute. reflexivity.
  - left. reflexivity.
Defined.

(* ================================================================== *)
(** ** Hosts without any labelled line *)

(** C5, as stated, fails: a host with no task outcome has no diagnostic
    line; its raw fields are all "N/A", and as "N/A" is neither the DNF
    sentinel nor a text containing "database file not found", its
    derived fields are "Last Pkg: N/A", "Last AV: N/A" and "No", not
    "N/A", "N/A" and "No". *)
Lemma no_lines_counterexample :
  host_lines (host_with []) = Ok []
  /\ parse_ansible_json (run_document [("web01"%string, host_with [])]) =
       Ok [("web01"%string, default_record)]
  /\ dict_get default_record "Rocky Updated" = Some "Last Pkg: N/A"%string
  /\ dict_get default_record "Rocky Updated" <> Some "N/A"%string
  /\ dict_get default_record "ClamAV Updated" = Some "Last AV: N/A"%string
  /\ dict_get default_record "ClamAV Updated" <> Some "N/A"%string.
Proof.
  repeat split; try (vm_compute; reflexivity); vm_compute; discriminate.
Qed.

(** C5 (amended): for every host whose Diagnostic Line Set has no line
    starting with any of the five field labels, the five raw fields are
    "N/A" and the derived fields are "Last Pkg: N/A", "Last AV: N/A"
    and "No". *)
Theorem unlabelled_host_defaults doc host lines rec :
  processed doc host lines rec ->
  Forall no_label lines ->
  extract_value lines LABEL_REBOOT = Ok "N/A"%string
  /\ extract_value lines LABEL_PKG = Ok "N/A"%string
  /\ extract_value lines LABEL_KERNEL = Ok "N/A"%string
  /\ extract_value lines LABEL_CLAMAV = Ok "N/A"%string
  /\ extract_value lines LABEL_JAVA = Ok "N/A"%string
  /\ rec = default_record.
Proof.
  intros Hproc HF.
  assert (Hmiss : forall p, (forall v, no_label v -> unlabelled p v) ->
                            extract_value lines p = Ok "N/A"%string).
  { intros p Hp. apply extract_value_miss.
    eapply Forall_impl; [exact Hp | exact HF]. }
  pose proof (Hmiss LABEL_REBOOT (fun v H => proj1 H)) as H1.
  pose proof (Hmiss LABEL_PKG (fun v H => proj1 (proj2 H))) as H2.
  pose proof (Hmiss LABEL_KERNEL (fun v H => proj1 (proj2 (proj2 H)))) as H3.
  pose proof (Hmiss LABEL_CLAMAV
                (fun v H => proj1 (proj2 (proj2 (proj2 H))))) as H4.
  pose proof (Hmiss LABEL_JAVA
                (fun v H => proj2 (proj2 (proj2 (proj2 H))))) as H5.
  repeat (split; [assumption|]).
  destruct Hproc as (items & hd & _ & _ & _ & Hrec).
  unfold lines_record in Hrec.
  rewrite H1, H2, H3, H4, H5 in Hrec. vm_compute in Hrec.
  now injection Hrec as <-.
Qed.

Lemma unlabelled_host_defaults_witness :
  extract_value [PStr kernel_only_line] LABEL_REBOOT = Ok "N/A"%string
  /\ extract_value [PStr kernel_only_line] LABEL_PKG = Ok "N/A"%string
  /\ extract_value [PStr kernel_only_line] LABEL_KERNEL = Ok "N/A"%string
  /\ extract_value [PStr kernel_only_line] LABEL_CLAMAV = Ok "N/A"%string
  /\ extract_value [PStr kernel_only_line] LABEL_JAVA = Ok "N/A"%string
  /\ default_record = default_record.
Proof.
  apply (unlabelled_host_defaults unlabelled_document "web01").
  - exists [("web01"%string,
             host_with [task_with_msg NAME_KERNEL kernel_only_line])],
      (host_with [task_with_msg NAME_KERNEL kernel_only_line]).
    repeat split; try (vm_compute; reflexivity). left. reflexivity.
  - constructor; [|constructor].
    repeat split; exists kernel_only_line; split; reflexivity.
Defined.

(* ================================================================== *)
(** ** One record per host, every field a string *)

Lemma lines_record_full lines rec :
  lines_record lines = Ok rec -> full_record rec.
Proof.
  intros H. apply lines_record_inv in H.
  destruct H as (rb & pk & kv & cu & js & rs & cs & H).
  exists rs, cs, rb, kv, (java_flag js). apply H.
Qed.

Lemma parse_full_records doc results :
  parse_ansible_json doc = Ok results ->
  Forall (fun hr => full_record (snd hr)) results.
Proof.
  intros Hp. apply Forall_forall. intros [h r] Hin.
  destruct (parse_processed _ _ _ _ Hp Hin)
    as (lines & items & hd & _ & _ & _ & H).
  simpl. eapply lines_record_full, H.
Qed.



(* ================================================================== *)
(** ** The end-to-end example *)

Lemma result_msg_default t m d :
  result_msg t PNone = Ok (PStr m) -> result_msg t d = Ok (PStr m).
Proof.
  unfold result_msg. destruct (py_get t "result" (PDict [])) as [r|e];
    simpl; [|discriminate].
  destruct r; simpl; try discriminate.
  destruct (dict_get kv "msg"); [auto | discriminate].
Qed.

Lemma contribution_single t name msg :
  carries t name msg -> single_line_name (PStr name) = true ->
  contribution t = Ok [PStr msg].
Proof.
  intros (Hn & Hm) Hs. unfold contribution.
  rewrite Hn. simpl. rewrite Hs, Hm. reflexivity.
Qed.

Lemma contribution_multi t name msg :
  carries t name msg -> single_line_name (PStr name) = false ->
  multi_line_name (PStr name) = true ->
  contribution t = Ok (map PStr (splitlines (strip msg))).
Proof.
  intros (Hn & Hm) Hs Hl. unfold contribution.
  rewrite Hn. simpl. rewrite Hs, Hl.
  rewrite (result_msg_default _ _ (PStr "") Hm). reflexivity.
Qed.

Lemma contribution_other t : other_outcome t -> contribution t = Ok [].
Proof.
  intros (n & Hn & Hs & Hl). unfold contribution.
  rewrite Hn. simpl. now rewrite Hs, Hl.
Qed.

(** The lines of a host whose outcomes each contribute lines taken from
    [univ]: they are all from [univ], and what an outcome contributes is
    among them. *)
Lemma collect_msgs_within (univ : list string) outs :
  Forall (fun t => exists l, contribution t = Ok l
                    /\ Forall (fun x => exists s, x = PStr s /\ In s univ) l)
         outs ->
  exists lines,
    collect_msgs [] outs = Ok lines
    /\ Forall (fun x => exists s, x = PStr s /\ In s univ) lines
    /\ (forall t l, In t outs -> contribution t = Ok l -> incl l lines).
Proof.
  induction 1 as [|t outs (l & Hl & Hu) _ (lines & Hc & Hlines & Hin)].
  - exists []. split; [reflexivity|]. split; [constructor|]. intros ? ? [].
  - exists (l ++ lines). split; [|split].
    + rewrite collect_msgs_cons, task_lines_contribution, Hl. simpl.
      now rewrite Hc.
    + apply Forall_app. split; assumption.
    + intros t' l' [<-|Ht'] Hl'.
      * rewrite Hl in Hl'. injection Hl' as <-. now apply incl_appl.
      * apply incl_appr. eapply Hin; eassumption.
Qed.

Lemma web01_outcome_lines t :
  web01_outcome t ->
  exists l, contribution t = Ok l
            /\ Forall (fun x => exists s, x = PStr s /\ In s web01_messages) l.
Proof.
  unfold web01_messages.
  intros [H|[H|[H|[H|[H|H]]]]].
  - exists [PStr MSG_REBOOT]. split; [now apply (contribution_single _ _ _ H)|].
    repeat constructor. eexists. split; [reflexivity|]. simpl. tauto.
  - exists [PStr MSG_PKG]. split; [now apply (contribution_single _ _ _ H)|].
    repeat constructor. eexists. split; [reflexivity|]. simpl. tauto.
  - exists [PStr MSG_KERNEL]. split; [now apply (contribution_single _ _ _ H)|].
    repeat constructor. eexists. split; [reflexivity|]. simpl. tauto.
  - exists [PStr MSG_CLAMAV].
    split; [now rewrite (contribution_multi _ _ _ H)|].
    repeat constructor. eexists. split; [reflexivity|]. simpl. tauto.
  - exists [PStr MSG_JAVA].
    split; [now rewrite (contribution_multi _ _ _ H)|].
    repeat constructor. eexists. split; [reflexivity|]. simpl. tauto.
  - exists []. split; [now apply contribution_other | constructor].
Qed.

Lemma web01_value p m v :
  In m web01_messages -> startswith m p = true -> value_of m = Ok v ->
  (forall s, In s web01_messages -> startswith s p = true -> s = m) ->
  forall lines,
    Forall (fun x => exists s, x = PStr s /\ In s web01_messages) lines ->
    In (PStr m) lines ->
    extract_value lines p = Ok v.
Proof.
  intros Hm Hp Hv Huniq lines HF Hin.
  apply (extract_value_among web01_messages); [exact HF | |].
  - intros s Hs Hsp. now rewrite (Huniq s Hs Hsp).
  - exists m. auto.
Qed.

Ltac only_message :=
  let s := fresh "s" in
  let H := fresh "H" in
  intros s H; unfold web01_messages in H; simpl in H;
  repeat (destruct H as [<-|H]; [vm_compute; intros; congruence|]);
  destruct H.

(** C1: for every document whose first play's last task group holds
    the one host web01, and whose outcomes for that host are those of
    the five display tasks with the messages of the example (in any
    order, any number of times, among outcomes of other tasks), the
    extractor returns the mapping whose only entry is web01's record:
    Rocky Updated "Last Pkg: 2024-03-02", ClamAV Updated
    "Last AV: 2024-03-03", Last Reboot "2024-03-01 10:00:00", Kernel
    Version "5.14.0", Java Running "Yes". *)
Theorem web01_example doc host_data outs :
  selects doc [("web01"%string, host_data)] ->
  host_outcomes host_data = Ok outs ->
  Forall web01_outcome outs ->
  (exists t, In t outs /\ carries t NAME_REBOOT MSG_REBOOT) ->
  (exists t, In t outs /\ carries t NAME_PKG MSG_PKG) ->
  (exists t, In t outs /\ carries t NAME_KERNEL MSG_KERNEL) ->
  (exists t, In t outs /\ carries t NAME_CLAMAV MSG_CLAMAV) ->
  (exists t, In t outs /\ carries t NAME_JAVA MSG_JAVA) ->
  parse_ansible_json doc = Ok [("web01"%string, web01_record)].
Proof.
  intros Hsel Houts HF (t1 & I1 & C1) (t2 & I2 & C2) (t3 & I3 & C3)
    (t4 & I4 & C4) (t5 & I5 & C5).
  apply selects_items in Hsel.
  rewrite parse_unfold, Hsel. cbn [bind host_loop].
  assert (Hlines : Forall (fun t => exists l, contribution t = Ok l
            /\ Forall (fun x => exists s, x = PStr s /\ In s web01_messages) l)
            outs).
  { eapply Forall_impl; [|exact HF]. apply web01_outcome_lines. }
  apply collect_msgs_within in Hlines.
  destruct Hlines as (lines & Hc & Hu & Hin).
  assert (M1 : In (PStr MSG_REBOOT) lines).
  { apply (Hin t1 [PStr MSG_REBOOT] I1); [|now left].
    now apply (contribution_single _ _ _ C1). }
  assert (M2 : In (PStr MSG_PKG) lines).
  { apply (Hin t2 [PStr MSG_PKG] I2); [|now left].
    now apply (contribution_single _ _ _ C2). }
  assert (M3 : In (PStr MSG_KERNEL) lines).
  { apply (Hin t3 [PStr MSG_KERNEL] I3); [|now left].
    now apply (contribution_single _ _ _ C3). }
  assert (M4 : In (PStr MSG_CLAMAV) lines).
  { apply (Hin t4 [PStr MSG_CLAMAV] I4); [|now left].
    now rewrite (contribution_multi _ _ _ C4). }
  assert (M5 : In (PStr MSG_JAVA) lines).
  { apply (Hin t5 [PStr MSG_JAVA] I5); [|now left].
    now rewrite (contribution_multi _ _ _ C5). }
  assert (E1 : extract_value lines LABEL_REBOOT = Ok "2024-03-01 10:00:00"%string).
  { apply (web01_value _ MSG_REBOOT); auto;
      [unfold web01_messages; simpl; tauto | only_message]. }
  assert (E2 : extract_value lines LABEL_PKG = Ok "2024-03-02 00:00:00"%string).
  { apply (web01_value _ MSG_PKG); auto;
      [unfold web01_messages; simpl; tauto | only_message]. }
  assert (E3 : extract_value lines LABEL_KERNEL = Ok "5.14.0"%string).
  { apply (web01_value _ MSG_KERNEL); auto;
      [unfold web01_messages; simpl; tauto | only_message]. }
  assert (E4 : extract_value lines LABEL_CLAMAV
               = Ok "2024-03-03 01:00:00 (older db removed)"%string).
  { apply (web01_value _ MSG_CLAMAV); auto;
      [unfold web01_messages; simpl; tauto | only_message]. }
  assert (E5 : extract_value lines LABEL_JAVA
               = Ok "Yes, Java processes found."%string).
  { apply (web01_value _ MSG_JAVA); auto;
      [unfold web01_messages; simpl; tauto | only_message]. }
  assert (Hhost : host_record host_data = Ok web01_record).
  { unfold host_record, host_lines.
    rewrite Houts. cbn [bind]. rewrite Hc. cbn [bind].
    unfold lines_record. rewrite E1, E2, E3, E4, E5.
    vm_compute. reflexivity. }
  rewrite Hhost. reflexivity.
Qed.

Lemma web01_example_witness :
  parse_ansible_json web01_document = Ok [("web01"%string, web01_record)].
Proof.
  apply (web01_example web01_document (host_with web01_outcomes)
           web01_outcomes).
  - eexists _, _, [], [], _.
    split; [reflexivity|]. split; [reflexivity|].
    split; [reflexivity | left; reflexivity].
  - reflexivity.
  - unfold web01_outcomes, web01_outcome, carries.
    repeat constructor; vm_compute; tauto.
  - exists (task_with_msg NAME_REBOOT MSG_REBOOT).
    split; [simpl; tauto | split; reflexivity].
  - exists (task_with_msg NAME_PKG MSG_PKG).
    split; [simpl; tauto | split; reflexivity].
  - exists (task_with_msg NAME_KERNEL MSG_KERNEL).
    split; [simpl; tauto | split; reflexivity].
  - exists (task_with_msg NAME_CLAMAV MSG_CLAMAV).
    split; [simpl; tauto | split; reflexivity].
  - exists (task_with_msg NAME_JAVA MSG_JAVA).
    split; [simpl; tauto | split; reflexivity].
Defined.

(* ================================================================== *)
(** ** The order of the diagnostic lines *)

(** C7, as stated, fails: the five name checks run inside the loop over
    the host's outcomes, so the lines stand in the order of the
    outcomes.  With the Java outcome recorded before a ClamAV outcome
    whose second line also carries the Java label, the Java lines come
    first (by the fixed list of names the ClamAV lines would), and
    swapping the two outcomes changes the Java line found first, hence
    the flag. *)
Lemma outcome_order_counterexample :
  Permutation [java_outcome; clamav_outcome] [clamav_outcome; java_outcome]
  /\ collect_msgs [] [java_outcome; clamav_outcome] =
       Ok [PStr MSG_JAVA; PStr CLAMAV_LINE; PStr JAVA_NO_LINE]
  /\ spec_lines_by_name [java_outcome; clamav_outcome] =
       Ok [PStr CLAMAV_LINE; PStr JAVA_NO_LINE; PStr MSG_JAVA]
  /\ collect_msgs [] [clamav_outcome; java_outcome] =
       Ok [PStr CLAMAV_LINE; PStr JAVA_NO_LINE; PStr MSG_JAVA]
  /\ parse_ansible_json
       (run_document
          [("web01"%string, host_with [java_outcome; clamav_outcome])]) =
       Ok [("web01"%string,
            [ ("Rocky Updated", "Last Pkg: N/A");
              ("ClamAV Updated", "Last AV: 2024-03-03");
              ("Last Reboot", "N/A");
              ("Kernel Version", "N/A");
              ("Java Running", "Yes") ]%string)]
  /\ parse_ansible_json
       (run_document
          [("web01"%string, host_with [clamav_outcome; java_outcome])]) =
       Ok [("web01"%string,
            [ ("Rocky Updated", "Last Pkg: N/A");
              ("ClamAV Updated", "Last AV: 2024-03-03");
              ("Last Reboot", "N/A");
              ("Kernel Version", "N/A");
              ("Java Running", "No") ]%string)].
Proof.
  split; [apply perm_swap|].
  repeat split; vm_compute; reflexivity.
Qed.

(** C7 (amended): for every host, the Diagnostic Line Set is the
    concatenation, in the order in which the host's task outcomes
    appear, of the lines each outcome contributes: its message for the
    three single-line task names, the lines of its stripped message for
    the two multi-line task names, nothing for any other name. *)
Theorem lines_in_outcome_order host_data lines :
  host_lines host_data = Ok lines <->
  exists outs ls,
    host_outcomes host_data = Ok outs
    /\ Forall2 (fun t l => contribution t = Ok l) outs ls
    /\ lines = concat ls.
Proof.
  unfold host_lines. split.
  - intros H.
    destruct (host_outcomes host_data) as [outs|e]; cbn [bind] in *;
      [|discriminate].
    apply collect_msgs_concat in H. destruct H as (ls & HF & ->).
    exists outs, ls. split; [reflexivity|]. split; [|reflexivity].
    clear - HF. induction HF as [|t l outs ls Ht _ IH]; constructor.
    + now rewrite <- task_lines_contribution.
    + exact IH.
  - intros (outs & ls & -> & HF & ->). cbn [bind].
    apply collect_msgs_concat. exists ls. split; [|reflexivity].
    clear - HF. induction HF as [|t l outs ls Ht _ IH]; constructor.
    + now rewrite task_lines_contribution.
    + exact IH.
Qed.

Lemma lines_in_outcome_order_witness :
  exists outs ls,
    host_outcomes (host_with [java_outcome; clamav_outcome]) = Ok outs
    /\ Forall2 (fun t l => contribution t = Ok l) outs ls
    /\ [PStr MSG_JAVA; PStr CLAMAV_LINE; PStr JAVA_NO_LINE] = concat ls.
Proof.
  apply (lines_in_outcome_order (host_with [java_outcome; clamav_outcome])).
  vm_compute. reflexivity.
Defined.

(* ================================================================== *)
(** ** Structural failures and the empty host mapping *)

(** C8: the extractor raises an index or key error on every document
    with no play (an [IndexError]) and on every document whose first
    play has no task group (a [KeyError] without a "tasks" entry, an
    [IndexError] with an empty list); on every document with a first
    play and a last task group whose host mapping is empty it returns
    the empty mapping. *)
Theorem structural_failures doc :
  (no_plays doc -> parse_ansible_json doc = Raise IndexError)
  /\ (no_task_groups doc ->
      parse_ansible_json doc = Raise IndexError
      \/ parse_ansible_json doc = Raise KeyError)
  /\ (first_play_tasks doc None -> parse_ansible_json doc = Raise KeyError)
  /\ (first_play_tasks doc (Some (PList [])) ->
      parse_ansible_json doc = Raise IndexError)
  /\ (selects doc [] -> parse_ansible_json doc = Ok []).
Proof.
  assert (Hk : first_play_tasks doc None ->
               parse_ansible_json doc = Raise KeyError).
  { intros (d & play & rest & -> & Hp & H).
    unfold parse_ansible_json, selected_hosts. cbn [py_get bind].
    rewrite Hp. cbn [py_index]. rewrite list_index_0.
    cbn [py_get bind]. now rewrite H. }
  assert (Hi : first_play_tasks doc (Some (PList [])) ->
               parse_ansible_json doc = Raise IndexError).
  { intros (d & play & rest & -> & Hp & H).
    unfold parse_ansible_json, selected_hosts. cbn [py_get bind].
    rewrite Hp. cbn [py_index]. rewrite list_index_0.
    cbn [py_get bind]. now rewrite H. }
  repeat split; try assumption.
  - intros (d & -> & [H|H]);
      unfold parse_ansible_json, selected_hosts; cbn [py_get bind];
      rewrite H; reflexivity.
  - intros [H|H]; [right; auto | left; auto].
  - intros H. apply selects_items in H. now rewrite parse_unfold, H.
Qed.

Lemma structural_failures_witness :
  parse_ansible_json (PDict []) = Raise IndexError
  /\ parse_ansible_json (PDict [("plays"%string, PList [PDict []])])
     = Raise KeyError
  /\ parse_ansible_json
       (PDict [("plays"%string,
                PList [PDict [("tasks"%string, PList [])]])])
     = Raise IndexError
  /\ parse_ansible_json (run_document []) = Ok [].
Proof.
  split; [|split; [|split]].
  - apply (proj1 (structural_failures (PDict []))).
    exists []. split; [reflexivity | left; reflexivity].
  - apply (proj1 (proj2 (proj2
             (structural_failures
                (PDict [("plays"%string, PList [PDict []])]))))).
    exists [("plays"%string, PList [PDict []])], [], [].
    repeat split.
  - apply (proj1 (proj2 (proj2 (proj2
             (structural_failures
                (PDict [("plays"%string,
                         PList [PDict [("tasks"%string, PList [])]])])))))).
    eexists _, _, []. repeat split.
  - apply (proj2 (proj2 (proj2 (proj2 (structural_failures (run_document [])))))).
    eexists _, _, [], [], _.
    split; [reflexivity|]. split; [reflexivity|].
    split; [reflexivity | left; reflexivity].
Defined.

(* ================================================================== *)
(** ** A named task without a message *)

(** A host that ran none of the five display tasks raises nothing: it
    has no diagnostic line and gets the default record. *)
Lemma absent_tasks_default host_data outs :
  host_outcomes host_data = Ok outs -> Forall other_outcome outs ->
  host_lines host_data = Ok [] /\ host_record host_data = Ok default_record.
Proof.
  intros Ho HF.
  assert (Hl : host_lines host_data = Ok []).
  { unfold host_lines. rewrite Ho. cbn [bind]. clear Ho.
    induction HF as [|t outs Ht _ IH]; [reflexivity|].
    rewrite collect_msgs_cons, task_lines_contribution,
      (contribution_other t Ht). cbn [bind]. now rewrite IH. }
  split; [exact Hl|]. unfold host_record. now rewrite Hl.
Qed.

(** C9 fails on the code: the three single-line tasks append
    [result.get('msg')] with no default, so a result without "msg" puts
    [None] among the lines and the first scan raises [AttributeError]
    at [line.startswith].  The two multi-line tasks read the message
    with the default [''] and contribute no line. *)
Lemma reboot_without_msg_raises :
  host_lines reboot_without_msg = Ok [PNone]
  /\ extract_value [PNone] LABEL_REBOOT = Raise AttributeError
  /\ parse_ansible_json (run_document [("web01"%string, reboot_without_msg)])
     = Raise AttributeError
  /\ host_lines clamav_without_msg = Ok []
  /\ parse_ansible_json (run_document [("web01"%string, clamav_without_msg)])
     = Ok [("web01"%string, default_record)].
Proof. repeat split; vm_compute; reflexivity. Qed.

(* ================================================================== *)
(** ** The reporter *)

Lemma dict_to_list_full host rec :
  full_record rec ->
  dict_to_list (dict_update [("Host"%string, host)] rec)
  = Ok (host_cells (host, rec)).
Proof. intros (a & b & c & d & e & ->). reflexivity. Qed.

Lemma append_assoc (a b c : string) :
  ((a ++ b) ++ c)%string = (a ++ (b ++ c))%string.
Proof. induction a as [|x a IH]; simpl; [reflexivity | now rewrite IH]. Qed.

Lemma md_row_full host rec :
  full_record rec -> md_row host rec = Ok (md_line (host_cells (host, rec))).
Proof.
  intros (a & b & c & d & e & ->).
  unfold md_row, md_line, host_cells, dict_item.
  cbn [dict_get String.eqb Ascii.eqb Bool.eqb bind fst snd map String.concat].
  now rewrite !append_assoc.
Qed.

Lemma csv_loop_full items : forall written,
  Forall (fun hr => full_record (snd hr)) items ->
  csv_loop written items = Ok (written ++ map host_cells items).
Proof.
  induction items as [|[host rec] items IH]; intros written HF; simpl.
  - now rewrite app_nil_r.
  - inversion HF as [|? ? Hrec HF']; subst. simpl in Hrec.
    rewrite (dict_to_list_full host rec Hrec). cbn [bind].
    rewrite (IH _ HF'). now rewrite <- app_assoc.
Qed.

Lemma md_loop_full items : forall written,
  Forall (fun hr => full_record (snd hr)) items ->
  md_loop written items
  = Ok (written ++ map (fun hr => md_line (host_cells hr)) items).
Proof.
  induction items as [|[host rec] items IH]; intros written HF; simpl.
  - now rewrite app_nil_r.
  - inversion HF as [|? ? Hrec HF']; subst. simpl in Hrec.
    rewrite (md_row_full host rec Hrec). cbn [bind].
    rewrite (IH _ HF'). now rewrite <- app_assoc.
Qed.




(* ================================================================== *)
(** * Further properties of the code *)

(* ================================================================== *)
(** ** The scan of [extract_value] *)

Lemma cut_app sep p a b r :
  cut sep p = Some (a, b) -> cut sep (p ++ r)%string = Some (a, (b ++ r)%string).
Proof.
  revert a b. induction p as [|c p IH]; intros a b; simpl; [discriminate|].
  destruct (Ascii.eqb c sep).
  - intros [= <- <-]. reflexivity.
  - destruct (cut sep p) as [[a' b']|]; [|discriminate].
    intros [= <- <-]. now rewrite (IH a' b' eq_refl).
Qed.

Lemma value_of_app p a b r :
  cut ":" p = Some (a, b) -> value_of (p ++ r)%string = Ok (strip (b ++ r)%string).
Proof.
  intros H. unfold value_of, split1. rewrite (cut_app _ _ _ _ r H).
  reflexivity.
Qed.

Lemma startswith_app s p :
  startswith s p = true -> exists r, s = (p ++ r)%string.
Proof. unfold startswith. apply prefix_app. Qed.

(** X1: the first line that carries the label decides, whatever follows
    it. *)
Theorem extract_value_first_match pre s post p :
  Forall (unlabelled p) pre -> startswith s p = true ->
  extract_value (pre ++ PStr s :: post) p = value_of s.
Proof.
  intros HF Hs. induction HF as [|v pre (x & -> & Hx) _ IH]; simpl.
  - now rewrite Hs.
  - now rewrite Hx.
Qed.

Lemma extract_value_first_match_witness :
  extract_value ([PStr "Uptime: 3 days"] ++ PStr MSG_KERNEL :: [PNone])
    LABEL_KERNEL = value_of MSG_KERNEL.
Proof.
  apply (extract_value_first_match [PStr "Uptime: 3 days"] MSG_KERNEL [PNone]).
  - repeat constructor. eexists. split; reflexivity.
  - reflexivity.
Defined.

(** X2: for each of the five labels, a line made of the label and some text
    has the stripped text as its value: the label's only colon is the
    one that ends it, so colons in the text are kept. *)
Theorem label_line_value label text more :
  In label LABELS ->
  extract_value (PStr (label ++ text)%string :: more) label = Ok (strip text).
Proof.
  intros Hl.
  assert (Hc : exists body, cut ":" label = Some (body, EmptyString)).
  { unfold LABELS in Hl. simpl in Hl.
    destruct Hl as [<-|[<-|[<-|[<-|[<-|[]]]]]]; eexists; reflexivity. }
  destruct Hc as (body & Hc).
  rewrite extract_value_str.
  assert (Hs : startswith (label ++ text)%string label = true)
    by (apply prefix_app; now exists text).
  rewrite Hs. now rewrite (value_of_app _ _ _ text Hc).
Qed.

Lemma label_line_value_witness :
  extract_value
    [PStr (LABEL_REBOOT ++ " 2024-03-01 10:00:00 ")%string] LABEL_REBOOT
  = Ok (strip " 2024-03-01 10:00:00 ").
Proof.
  apply (label_line_value LABEL_REBOOT " 2024-03-01 10:00:00 " []).
  left. reflexivity.
Defined.

(** X3: a line that is not a string, met before any line with the label,
    is the only way the scan fails when the prefix has a colon; the
    failure is an [AttributeError]. *)
Theorem extract_value_failure lines p e :
  cut ":" p <> None ->
  (extract_value lines p = Raise e <->
   e = AttributeError
   /\ exists pre v post,
        lines = pre ++ v :: post /\ Forall (unlabelled p) pre /\ ~ is_str v).
Proof.
  intros Hp. split.
  - induction lines as [|line lines IH]; simpl; [discriminate|].
    destruct line as [| | | |s| |];
      try (intros [= <-]; split; [reflexivity|];
           eexists [], _, lines; split; [reflexivity|];
           split; [constructor | intros (x & Hx); discriminate]).
    destruct (startswith s p) eqn:Hs.
    + apply startswith_app in Hs. destruct Hs as (r & ->).
      destruct (cut ":" p) as [[a b]|] eqn:Hc; [|congruence].
      fold (value_of (p ++ r)%string).
      rewrite (value_of_app _ _ _ r Hc). discriminate.
    + intros H. destruct (IH H) as (-> & pre & v & post & -> & HF & Hv).
      split; [reflexivity|]. exists (PStr s :: pre), v, post.
      split; [reflexivity|]. split; [|exact Hv].
      constructor; [|exact HF]. exists s. auto.
  - intros (-> & pre & v & post & -> & HF & Hv).
    induction HF as [|x pre (s & -> & Hs) _ IH]; simpl.
    + destruct v as [| | | |s| |]; try reflexivity.
      exfalso. apply Hv. now exists s.
    + now rewrite Hs.
Qed.

Lemma extract_value_failure_witness :
  extract_value [PStr MSG_KERNEL; PNone] LABEL_REBOOT = Raise AttributeError <->
  AttributeError = AttributeError
  /\ exists pre v post,
       [PStr MSG_KERNEL; PNone] = pre ++ v :: post
       /\ Forall (unlabelled LABEL_REBOOT) pre /\ ~ is_str v.
Proof.
  apply (extract_value_failure [PStr MSG_KERNEL; PNone] LABEL_REBOOT).
  vm_compute. discriminate.
Defined.

Lemma rstrip_cons c r :
  rstrip (String c r) =
  match rstrip r with
  | EmptyString => if is_space c then EmptyString else String c EmptyString
  | r' => String c r'
  end.
Proof. reflexivity. Qed.

Lemma rstrip_idem s : rstrip (rstrip s) = rstrip s.
Proof.
  induction s as [|c s IH]; [reflexivity|]. rewrite rstrip_cons.
  destruct (rstrip s) as [|d r] eqn:E.
  - destruct (is_space c) eqn:Ec; [reflexivity|]. simpl. now rewrite Ec.
  - rewrite rstrip_cons, IH. reflexivity.
Qed.

Lemma strip_idem s : strip (strip s) = strip s.
Proof.
  unfold strip at 1. rewrite strip_no_leading. unfold strip.
  apply rstrip_idem.
Qed.

Lemma rstrip_last s r c :
  rstrip s = (r ++ String c EmptyString)%string -> is_space c = false.
Proof.
  revert r. induction s as [|d s IH]; intros r; cbn [rstrip].
  - destruct r; discriminate.
  - destruct (rstrip s) as [|x t] eqn:E.
    + destruct (is_space d) eqn:Ed.
      * destruct r; discriminate.
      * destruct r as [|y r]; simpl.
        -- intros [= <-]. exact Ed.
        -- destruct r; discriminate.
    + destruct r as [|y r]; simpl.
      * discriminate.
      * intros [= _ H]. apply (IH r). exact H.
Qed.

(** X4: a value the scan returns has no whitespace at either end, and
    stripping it again changes nothing. *)
Theorem extract_value_trimmed lines p raw :
  extract_value lines p = Ok raw ->
  strip raw = raw
  /\ (forall c r, raw = String c r -> is_space c = false)
  /\ (forall r c, raw = (r ++ String c EmptyString)%string -> is_space c = false).
Proof.
  intros H.
  assert (Hs : strip raw = raw).
  { induction lines as [|line lines IH]; simpl in H.
    - injection H as <-. reflexivity.
    - destruct line; try discriminate.
      destruct (startswith s p); [|auto].
      inv_bind H. injection H as <-. apply strip_idem. }
  split; [exact Hs|]. split.
  - intros c r ->. pose proof (extract_value_stripped _ _ _ H) as Hl.
    simpl in Hl. destruct (is_space c); [|reflexivity].
    exfalso. clear - Hl.
    assert (Hlen : forall s,
               (String.length (lstrip s) <= String.length s)%nat).
    { induction s as [|x s IHs]; simpl; [lia|].
      destruct (is_space x); simpl; lia. }
    pose proof (Hlen r) as Hr. rewrite Hl in Hr. simpl in Hr. lia.
  - intros r c ->. unfold strip in Hs. eapply rstrip_last. exact Hs.
Qed.

Lemma extract_value_trimmed_witness :
  strip "5.14.0" = "5.14.0"%string
  /\ (forall c r, "5.14.0"%string = String c r -> is_space c = false)
  /\ (forall r c, "5.14.0"%string = (r ++ String c EmptyString)%string ->
      is_space c = false).
Proof.
  apply (extract_value_trimmed [PStr MSG_KERNEL] LABEL_KERNEL).
  reflexivity.
Defined.

(** X5: a line with the prefix that has no colon at all (the prefix then
    has none either) makes the scan fail with [IndexError]: there is
    nothing after [split(':', 1)[0]]. *)
Theorem extract_value_no_colon pre s post p :
  Forall (unlabelled p) pre -> startswith s p = true ->
  cut ":" s = None ->
  extract_value (pre ++ PStr s :: post) p = Raise IndexError.
Proof.
  intros HF Hs Hc. induction HF as [|v pre (x & -> & Hx) _ IH]; simpl.
  - rewrite Hs. unfold split1. now rewrite Hc.
  - now rewrite Hx.
Qed.

Lemma extract_value_no_colon_witness :
  extract_value ([PStr MSG_KERNEL] ++ PStr "Uptime 3 days" :: []) "Uptime"
  = Raise IndexError.
Proof.
  apply (extract_value_no_colon [PStr MSG_KERNEL] "Uptime 3 days" [] "Uptime").
  - repeat constructor. eexists. split; reflexivity.
  - reflexivity.
  - reflexivity.
Defined.

(** X6: string lines without the label do not disturb the scan: with or
    without such a line, anywhere, the result is the same. *)
Theorem extract_value_skips_unlabelled pre x post p :
  unlabelled p x ->
  extract_value (pre ++ x :: post) p = extract_value (pre ++ post) p.
Proof.
  intros (s & -> & Hs). induction pre as [|y pre IH]; simpl.
  - now rewrite Hs.
  - destruct y; try reflexivity. now rewrite IH.
Qed.

Lemma extract_value_skips_unlabelled_witness :
  extract_value ([PStr MSG_REBOOT] ++ PStr MSG_PKG :: [PStr MSG_KERNEL])
    LABEL_KERNEL
  = extract_value ([PStr MSG_REBOOT] ++ [PStr MSG_KERNEL]) LABEL_KERNEL.
Proof.
  apply (extract_value_skips_unlabelled [PStr MSG_REBOOT] (PStr MSG_PKG)
           [PStr MSG_KERNEL] LABEL_KERNEL).
  exists MSG_PKG. split; reflexivity.
Defined.

(* ================================================================== *)
(** ** The lines of a host *)

Lemma collect_msgs_app a b :
  collect_msgs [] (a ++ b) =
  (la <- collect_msgs [] a ;; lb <- collect_msgs [] b ;; Ok (la ++ lb)).
Proof.
  induction a as [|t a IH].
  - simpl. destruct (collect_msgs [] b); reflexivity.
  - rewrite <- app_comm_cons, !collect_msgs_cons, IH.
    destruct (task_lines t) as [l|e]; cbn [bind]; [|reflexivity].
    destruct (collect_msgs [] a) as [la|e]; cbn [bind]; [|reflexivity].
    destruct (collect_msgs [] b) as [lb|e]; cbn [bind]; [|reflexivity].
    now rewrite app_assoc.
Qed.

(** X7: outcomes of tasks other than the five display tasks count for
    nothing: with or without such an outcome, anywhere in the host's
    list, the host's record (or the exception) is the same. *)
Theorem other_outcome_ignored host_data host_data' pre t post :
  host_outcomes host_data = Ok (pre ++ t :: post) ->
  host_outcomes host_data' = Ok (pre ++ post) ->
  other_outcome t ->
  host_record host_data = host_record host_data'.
Proof.
  intros H H' Ht. unfold host_record, host_lines. rewrite H, H'.
  cbn [bind]. f_equal.
  change (t :: post) with ([t] ++ post).
  rewrite !collect_msgs_app.
  assert (E : collect_msgs [] [t] = Ok []).
  { rewrite collect_msgs_cons, task_lines_contribution,
      (contribution_other t Ht). reflexivity. }
  rewrite E. cbn [bind].
  destruct (collect_msgs [] pre) as [la|e]; cbn [bind]; [|reflexivity].
  destruct (collect_msgs [] post) as [lb|e]; reflexivity.
Qed.

Lemma other_outcome_ignored_witness :
  host_record
    (host_with ([task_with_msg NAME_KERNEL MSG_KERNEL]
                ++ task_with_msg "Gather Facts" "ok"
                   :: [task_with_msg NAME_JAVA MSG_JAVA]))
  = host_record
      (host_with ([task_with_msg NAME_KERNEL MSG_KERNEL]
                  ++ [task_with_msg NAME_JAVA MSG_JAVA])).
Proof.
  apply (other_outcome_ignored _ _ [task_with_msg NAME_KERNEL MSG_KERNEL]
           (task_with_msg "Gather Facts" "ok")
           [task_with_msg NAME_JAVA MSG_JAVA]).
  - reflexivity.
  - reflexivity.
  - exists (PStr "Gather Facts"). repeat split.
Defined.

Lemma in_chars_app a b c :
  In c (list_ascii_of_string (a ++ b)%string) <->
  In c (list_ascii_of_string a) \/ In c (list_ascii_of_string b).
Proof.
  induction a as [|x a IH]; simpl; [tauto|]. rewrite IH. tauto.
Qed.

Lemma splitlines_from_one_line n : forall s cur,
  (String.length s <= n)%nat -> one_line cur ->
  Forall one_line (splitlines_from cur s).
Proof.
  induction n as [|n IH]; intros s cur Hn Hcur.
  - destruct s; [|simpl in Hn; lia]. simpl.
    destruct cur; repeat constructor; assumption.
  - destruct s as [|c r].
    { simpl. destruct cur; repeat constructor; assumption. }
    assert (Hempty : one_line EmptyString) by (intros x []).
    simpl in Hn. cbn [splitlines_from].
    destruct (Ascii.eqb c CR).
    + destruct r as [|c' r'].
      * constructor; [assumption|]. apply IH; [simpl; lia | assumption].
      * destruct (Ascii.eqb c' LF).
        -- constructor; [assumption|]. apply IH; [|assumption].
           simpl in Hn. lia.
        -- constructor; [assumption|]. apply IH; [lia | assumption].
    + destruct (is_linebreak c) eqn:Ec.
      * constructor; [assumption|]. apply IH; [lia | assumption].
      * apply IH; [lia|]. intros x Hx. apply in_chars_app in Hx.
        destruct Hx as [Hx|[<-|[]]]; [now apply Hcur | exact Ec].
Qed.

(** X8: what the two multi-line tasks put among the lines are always
    strings, each without a line boundary. *)
Theorem multi_line_contribution t n ls :
  task_name t = Ok n -> multi_line_name n = true ->
  contribution t = Ok ls ->
  Forall (fun v => exists s, v = PStr s /\ one_line s) ls.
Proof.
  intros Hn Hm. unfold contribution. rewrite Hn. cbn [bind].
  assert (Hs : single_line_name n = false).
  { unfold multi_line_name, single_line_name in *.
    destruct n as [| | | |s| |]; try reflexivity. simpl in *.
    apply orb_true_iff in Hm.
    destruct Hm as [Hm|Hm]; apply String.eqb_eq in Hm; subst; reflexivity. }
  rewrite Hs, Hm. intros H. inv_bind H. inv_bind H. injection H as <-.
  apply Forall_map.
  eapply Forall_impl;
    [|apply (splitlines_from_one_line (String.length a0) a0 EmptyString);
      [lia | intros x []]].
  intros s Hs'. exists s. auto.
Qed.

Lemma multi_line_contribution_witness :
  Forall (fun v => exists s, v = PStr s /\ one_line s)
    [PStr CLAMAV_LINE; PStr JAVA_NO_LINE].
Proof.
  apply (multi_line_contribution clamav_outcome (PStr NAME_CLAMAV)).
  - reflexivity.
  - reflexivity.
  - vm_compute. reflexivity.
Defined.

(* ================================================================== *)
(** ** From lines to the record *)

Lemma labels_have_colon label :
  In label LABELS -> cut ":" label <> None.
Proof.
  unfold LABELS. simpl.
  intros [<-|[<-|[<-|[<-|[<-|[]]]]]]; vm_compute; discriminate.
Qed.

Lemma extract_value_strings lines p :
  cut ":" p <> None -> Forall is_str lines ->
  exists v, extract_value lines p = Ok v.
Proof.
  intros Hp HF. induction HF as [|x lines (s & ->) _ (v & IH)].
  - eexists. reflexivity.
  - rewrite extract_value_str. destruct (startswith s p) eqn:Hs.
    + apply startswith_app in Hs. destruct Hs as (r & ->).
      destruct (cut ":" p) as [[a b]|] eqn:Hc; [|congruence].
      rewrite (value_of_app _ _ _ r Hc). eexists. reflexivity.
    + exists v. exact IH.
Qed.

(** X9: when every diagnostic line is a string the record is built: no
    scan and no derived field raises. *)
Theorem strings_give_record lines :
  Forall is_str lines ->
  exists rec, lines_record lines = Ok rec /\ full_record rec.
Proof.
  intros HF.
  assert (H : forall label, In label LABELS ->
                            exists v, extract_value lines label = Ok v).
  { intros label Hl. apply extract_value_strings; [|exact HF].
    now apply labels_have_colon. }
  unfold LABELS in H.
  destruct (H LABEL_REBOOT) as (v1 & E1); [simpl; tauto|].
  destruct (H LABEL_PKG) as (v2 & E2); [simpl; tauto|].
  destruct (H LABEL_KERNEL) as (v3 & E3); [simpl; tauto|].
  destruct (H LABEL_CLAMAV) as (v4 & E4); [simpl; tauto|].
  destruct (H LABEL_JAVA) as (v5 & E5); [simpl; tauto|].
  unfold lines_record. rewrite E1, E2, E3, E4, E5. cbn [bind].
  rewrite rocky_status_eq, clamav_status_eq. cbn [bind].
  eexists. split; [reflexivity|]. do 5 eexists. reflexivity.
Qed.

Lemma strings_give_record_witness :
  exists rec,
    lines_record [PStr MSG_KERNEL; PStr "Uptime: 3 days"] = Ok rec
    /\ full_record rec.
Proof.
  apply (strings_give_record [PStr MSG_KERNEL; PStr "Uptime: 3 days"]).
  repeat constructor; eexists; reflexivity.
Defined.

Lemma scan_before_non_string pre v post p :
  cut ":" p <> None -> Forall is_str pre -> ~ is_str v ->
  (exists x, extract_value (pre ++ v :: post) p = Ok x)
  \/ extract_value (pre ++ v :: post) p = Raise AttributeError.
Proof.
  intros Hp HF Hv. induction HF as [|y pre (s & ->) _ IH]; simpl.
  - right. destruct v as [| | | |s| |]; try reflexivity.
    exfalso. apply Hv. now exists s.
  - destruct (startswith s p) eqn:Hs; [|exact IH].
    left. apply startswith_app in Hs. destruct Hs as (r & ->).
    destruct (cut ":" p) as [[a b]|] eqn:Hc; [|congruence].
    fold (value_of (p ++ r)%string). rewrite (value_of_app _ _ _ r Hc).
    eexists. reflexivity.
Qed.

Lemma scan_hits_non_string pre v post p :
  Forall (unlabelled p) pre -> ~ is_str v ->
  extract_value (pre ++ v :: post) p = Raise AttributeError.
Proof.
  intros HF Hv. induction HF as [|y pre (s & -> & Hs) _ IH]; simpl.
  - destruct v as [| | | |s| |]; try reflexivity.
    exfalso. apply Hv. now exists s.
  - now rewrite Hs.
Qed.

(** X10: a line that is not a string (a message that is null, a number, a
    list) makes the record fail with [AttributeError] as soon as one of
    the five labels has no line before it. *)
Theorem non_string_line_raises pre v post label :
  Forall is_str pre -> ~ is_str v ->
  In label LABELS -> Forall (unlabelled label) pre ->
  lines_record (pre ++ v :: post) = Raise AttributeError.
Proof.
  intros HF Hv Hl Hmiss.
  pose proof (scan_hits_non_string pre v post label Hmiss Hv) as HL.
  assert (H : forall l, In l LABELS ->
            (exists x, extract_value (pre ++ v :: post) l = Ok x)
            \/ extract_value (pre ++ v :: post) l = Raise AttributeError).
  { intros l Hin. apply scan_before_non_string; auto.
    now apply labels_have_colon. }
  unfold LABELS in H, Hl.
  destruct (H LABEL_REBOOT) as [(x1 & E1)|E1]; [simpl; tauto| |];
    unfold lines_record; rewrite E1; cbn [bind]; [|reflexivity].
  destruct (H LABEL_PKG) as [(x2 & E2)|E2]; [simpl; tauto| |];
    rewrite E2; cbn [bind]; [|reflexivity].
  destruct (H LABEL_KERNEL) as [(x3 & E3)|E3]; [simpl; tauto| |];
    rewrite E3; cbn [bind]; [|reflexivity].
  destruct (H LABEL_CLAMAV) as [(x4 & E4)|E4]; [simpl; tauto| |];
    rewrite E4; cbn [bind]; [|reflexivity].
  destruct (H LABEL_JAVA) as [(x5 & E5)|E5]; [simpl; tauto| |];
    rewrite E5; cbn [bind]; [|reflexivity].
  exfalso. simpl in Hl.
  destruct Hl as [<-|[<-|[<-|[<-|[<-|[]]]]]]; congruence.
Qed.

Lemma non_string_line_raises_witness :
  lines_record ([PStr MSG_REBOOT] ++ PNone :: [PStr MSG_KERNEL])
  = Raise AttributeError.
Proof.
  apply (non_string_line_raises [PStr MSG_REBOOT] PNone [PStr MSG_KERNEL]
           LABEL_KERNEL).
  - repeat constructor. eexists. reflexivity.
  - intros (s & H). discriminate.
  - simpl. tauto.
  - repeat constructor. eexists. split; reflexivity.
Defined.

(* ================================================================== *)
(** ** The loop over hosts *)

Lemma host_loop_raises pre : forall acc host host_data post e,
  Forall host_ok pre -> host_record host_data = Raise e ->
  host_loop acc (pre ++ (host, host_data) :: post) = Raise e.
Proof.
  induction pre as [|[h hd] pre IH]; intros acc host host_data post e HF He.
  - simpl. now rewrite He.
  - inversion HF as [|? ? (r & Hr) HF']; subst. simpl in Hr |- *.
    rewrite Hr. cbn [bind]. now apply IH.
Qed.

(** X11: one host is enough to fail the run: the exception of the first host
    whose record cannot be built is the result of the extractor, and no
    record of any other host is returned. *)
Theorem first_failing_host_aborts doc pre host host_data post e :
  selects doc (pre ++ (host, host_data) :: post) ->
  Forall host_ok pre ->
  host_record host_data = Raise e ->
  parse_ansible_json doc = Raise e.
Proof.
  intros Hsel HF He. apply selects_items in Hsel.
  rewrite parse_unfold, Hsel. cbn [bind]. now apply host_loop_raises.
Qed.

Lemma first_failing_host_aborts_witness :
  parse_ansible_json
    (run_document ([("web01"%string, host_with web01_outcomes)]
                   ++ ("web02"%string, reboot_without_msg)
                      :: [("web03"%string, host_with [])]))
  = Raise AttributeError.
Proof.
  apply (first_failing_host_aborts _
           [("web01"%string, host_with web01_outcomes)]
           "web02" reboot_without_msg [("web03"%string, host_with [])]).
  - eexists _, _, [], [], _.
    split; [reflexivity|]. split; [reflexivity|].
    split; [reflexivity | left; reflexivity].
  - repeat constructor. exists web01_record. vm_compute. reflexivity.
  - vm_compute. reflexivity.
Defined.

Lemma dict_get_combine items : forall rs h,
  Forall2 (fun it r => host_record (snd it) = Ok r) items rs ->
  match dict_get items h with
  | Some hd =>
      exists r, host_record hd = Ok r
                /\ dict_get (combine (dict_keys items) rs) h = Some r
  | None => dict_get (combine (dict_keys items) rs) h = None
  end.
Proof.
  induction items as [|[k hd] items IH]; intros rs h HF.
  - inversion HF; subst. reflexivity.
  - inversion HF as [|? r ? rs' Hr HF']; subst. simpl in Hr |- *.
    destruct (String.eqb k h).
    + exists r. auto.
    + apply IH. exact HF'.
Qed.

(** X12: with distinct host names, looking a host up in the result gives the
    record built from that host's own data, and a name that is not a
    host of the selected task group is not in the result. *)
Theorem result_lookup doc hosts results h :
  selects doc hosts -> NoDup (dict_keys hosts) ->
  parse_ansible_json doc = Ok results ->
  match dict_get hosts h with
  | Some host_data =>
      exists r, host_record host_data = Ok r /\ dict_get results h = Some r
  | None => dict_get results h = None
  end.
Proof.
  intros Hsel Hnd Hp. apply selects_items in Hsel.
  rewrite parse_unfold, Hsel in Hp. cbn [bind] in Hp.
  apply host_loop_ordered in Hp; [|exact Hnd].
  destruct Hp as (rs & HF & ->). simpl.
  now apply dict_get_combine.
Qed.

Lemma result_lookup_witness :
  match dict_get [("web01"%string, host_with web01_outcomes)] "web01" with
  | Some host_data =>
      exists r, host_record host_data = Ok r
                /\ dict_get [("web01"%string, web01_record)] "web01" = Some r
  | None => dict_get [("web01"%string, web01_record)] "web01" = None
  end.
Proof.
  apply (result_lookup web01_document
           [("web01"%string, host_with web01_outcomes)]).
  - eexists _, _, [], [], _.
    split; [reflexivity|]. split; [reflexivity|].
    split; [reflexivity | left; reflexivity].
  - repeat constructor. intros [].
  - vm_compute. reflexivity.
Defined.

(* ================================================================== *)
(** ** The traversal of the document *)

(** X13: the traversal to the host mapping succeeds on exactly the documents
    that are an object whose "plays" is a non-empty list starting with
    an object, whose "tasks" is a non-empty list ending with an object,
    whose "hosts" is an object or is absent. *)
Theorem traversal_shape doc hosts :
  selected_items doc = Ok hosts <-> selects doc hosts.
Proof.
  split; [apply selected_items_selects | apply selects_items].
Qed.

(** X14: nothing but the host mapping of the first play's last task group is
    read: two documents that agree on it have the same result. *)
Theorem rest_of_document_ignored doc doc' hosts :
  selects doc hosts -> selects doc' hosts ->
  parse_ansible_json doc = parse_ansible_json doc'.
Proof.
  intros H H'. apply selects_items in H, H'.
  now rewrite !parse_unfold, H, H'.
Qed.

Lemma rest_of_document_ignored_witness :
  parse_ansible_json (run_document [("web01"%string, host_with [])])
  = parse_ansible_json
      (PDict [("stats"%string, PDict []);
              ("plays"%string,
               PList [PDict [("tasks"%string,
                              PList [PDict [("hosts"%string, PDict [])];
                                     PDict [("hosts"%string,
                                             PDict [("web01"%string,
                                                     host_with [])])]])];
                      PNone])]).
Proof.
  apply (rest_of_document_ignored _ _ [("web01"%string, host_with [])]).
  - eexists _, _, [], [], _.
    split; [reflexivity|]. split; [reflexivity|].
    split; [reflexivity | left; reflexivity].
  - eexists _, _, [PNone], [PDict [("hosts"%string, PDict [])]], _.
    split; [reflexivity|]. split; [reflexivity|].
    split; [reflexivity | left; reflexivity].
Defined.

(* ================================================================== *)
(** ** The run as a whole *)

Lemma csv_report_full parsed :
  Forall (fun hr => full_record (snd hr)) parsed ->
  csv_report parsed = Ok (fieldnames :: map host_cells parsed).
Proof.
  intros HF. unfold csv_report.
  change (dict_to_list (combine fieldnames fieldnames)) with (Ok fieldnames).
  cbn [bind]. now rewrite csv_loop_full.
Qed.

Lemma md_report_full date parsed :
  Forall (fun hr => full_record (snd hr)) parsed ->
  md_report date parsed =
  Ok ([md_title date; MD_HEADER; MD_SEPARATOR]
      ++ map (fun hr => md_line (host_cells hr)) parsed
      ++ [NL; "---"%string; MD_NOTE]).
Proof.
  intros HF. unfold md_report. rewrite md_loop_full by exact HF.
  cbn [bind]. now rewrite <- app_assoc.
Qed.

(** X15: the run never leaves one report without the other: either both
    files are written to the end and the two confirmations printed, or
    neither file is opened and a single line is printed, the guidance
    for a missing input or the error caught. *)
Theorem main_all_or_nothing CHECKLIST_DATE inp :
  (exists rows chunks,
     csv_file (main CHECKLIST_DATE inp) = Written rows
     /\ md_file (main CHECKLIST_DATE inp) = Written chunks
     /\ stdout (main CHECKLIST_DATE inp) = [CsvGenerated; MarkdownGenerated])
  \/ (csv_file (main CHECKLIST_DATE inp) = Untouched
      /\ md_file (main CHECKLIST_DATE inp) = Untouched
      /\ (stdout (main CHECKLIST_DATE inp) = [InputNotFound]
          \/ exists f, stdout (main CHECKLIST_DATE inp) = [ErrorOccurred f])).
Proof.
  destruct inp as [| |doc]; simpl.
  - right. auto.
  - right. repeat split. right. eexists. reflexivity.
  - destruct (parse_ansible_json doc) as [parsed|e] eqn:Hp.
    + apply parse_full_records in Hp.
      rewrite (csv_report_full _ Hp), (md_report_full CHECKLIST_DATE _ Hp).
      left. do 2 eexists. repeat split.
    + right. repeat split. right. eexists. reflexivity.
Qed.

